(** * Text-to-speech endpoint: validate, synthesise, store, download

    A shallow embedding of the Express route
    [POST /api/text-to-speech/convert] and of what stands behind it:

    - [textToSpeech.dto.ts]: the express-validator chain on [body('text')];
    - [validationMiddleware.ts]: the 400 answer on validation errors;
    - [textToSpeech.service.ts]: [TextToSpeechService.convertTextToSpeech];
    - [textToSpeech.controller.ts]: [TextToSpeechController.convertTextToSpeech];
    - [textToSpeech.routes.ts]: the order of the three handlers.

    The libraries the code calls (express, express-validator, openai, uuid,
    node's path and fs) are not part of the repository.  Their observable
    behaviour is modelled below, each piece next to a note that says which
    library behaviour it stands for.  Everything the outside world decides
    during one request (what the provider answers, which identifier is drawn,
    whether the disk write and the file transfer work) is collected in an
    environment record, so that every theorem quantifies over it. *)

From Stdlib Require Import Ascii.
From stdpp Require Import gmap strings list.

Set Warnings "-register-all".

Open Scope string_scope.
Open Scope list_scope.
Open Scope Z_scope.

(** ** JavaScript values

    [req.body] is whatever [express.json()] parsed, so the handlers see
    run-time values, not the TypeScript annotations (which are erased). *)

Inductive JsValue : Type :=
  | JUndefined
  | JNull
  | JBool (b : bool)
  | JNum (repr : string)   (* a number, kept as the text [String(n)] gives *)
  | JStr (s : string)
  | JArr (items : list JsValue)
  | JObj (fields : list (string * JsValue)).

Abbreviation bytes := (list Byte.byte).

(** [typeof v === 'string'] *)
Definition is_js_string (v : JsValue) : bool :=
  match v with JStr _ => true | _ => false end.

(** Property read [o[k]] on an object literal (first own field of that name). *)
Fixpoint assoc_get (k : string) (fields : list (string * JsValue)) : JsValue :=
  match fields with
  | [] => JUndefined
  | (k', v) :: rest => if String.eqb k k' then v else assoc_get k rest
  end.

(** [_.get(o, k)]: the read express-validator uses to select a field; it
    never throws, and values without such a property give [undefined]. *)
Definition select_field (o : JsValue) (k : string) : JsValue :=
  match o with
  | JObj fields => assoc_get k fields
  | _ => JUndefined
  end.

(** [sep.join(parts)] *)
Fixpoint join (sep : string) (parts : list string) : string :=
  match parts with
  | [] => ""
  | [p] => p
  | p :: rest => p +:+ sep +:+ join sep rest
  end.

(** Does the object literal have an own property of that name. *)
Fixpoint has_own (k : string) (fields : list (string * JsValue)) : bool :=
  match fields with
  | [] => false
  | (k', _) :: rest => String.eqb k k' || has_own k rest
  end.

(** JavaScript truthiness, on parsed JSON (a number is falsy when it is
    zero, which prints as ["0"]). *)
Definition truthy (v : JsValue) : bool :=
  match v with
  | JUndefined | JNull | JBool false => false
  | JNum repr => negb (String.eqb repr "0")
  | JStr s => negb (String.eqb s "")
  | _ => true
  end.

(** All the texts, or nothing if one is missing. *)
Fixpoint all_texts (texts : list (option string)) : option (list string) :=
  match texts with
  | [] => Some []
  | Some t :: rest =>
      match all_texts rest with Some ts => Some (t :: ts) | None => None end
  | None :: _ => None
  end.

(** JavaScript's [String(v)]; [None] stands for the TypeError "Cannot
    convert object to primitive value".  An object parsed from JSON
    converts through the inherited [toString] unless it has an own
    [toString] property, which cannot be a function; then neither
    [toString] nor [valueOf] yields a primitive and the conversion throws.
    An array converts by [join(',')], in which [null] and [undefined]
    items print as the empty string. *)
Fixpoint js_String (v : JsValue) : option string :=
  match v with
  | JUndefined => Some "undefined"
  | JNull => Some "null"
  | JBool true => Some "true"
  | JBool false => Some "false"
  | JNum repr => Some repr
  | JStr s => Some s
  | JArr items =>
      match all_texts (map (fun x => match x with
                                     | JUndefined | JNull => Some ""
                                     | _ => js_String x
                                     end) items) with
      | Some texts => Some (join "," texts)
      | None => None
      end
  | JObj fields =>
      if has_own "toString" fields then None else Some "[object Object]"
  end.

(** ** Strings and POSIX paths *)

Definition slash : ascii := "/"%char.

(** [s.split('/')]: never empty, [''.split('/')] is [['']]. *)
Fixpoint split_slash (s : string) : list string :=
  match s with
  | EmptyString => [""]
  | String c rest =>
      if Ascii.eqb c slash then "" :: split_slash rest
      else match split_slash rest with
           | seg :: segs => String c seg :: segs
           | [] => [String c ""]
           end
  end.

(** [arr.pop()]: the last element, [undefined] on an empty array. *)
Definition pop (l : list string) : option string := last l.

(** [x || dflt] for [x : string | undefined]: the empty string is falsy. *)
Definition or_default (x : option string) (dflt : string) : string :=
  match x with
  | Some s => if String.eqb s "" then dflt else s
  | None => dflt
  end.

Definition starts_with_slash (s : string) : bool :=
  match s with String c _ => Ascii.eqb c slash | EmptyString => false end.

Fixpoint ends_with_slash (s : string) : bool :=
  match s with
  | EmptyString => false
  | String c EmptyString => Ascii.eqb c slash
  | String _ rest => ends_with_slash rest
  end.

Module Path.

(** node's [path.posix].  [normalizeString] walks the path segment by
    segment; [acc] is the list of kept segments, last one first. *)
Definition normalize_step (allowAboveRoot : bool) (acc : list string) (seg : string)
  : list string :=
  if String.eqb seg "" then acc
  else if String.eqb seg "." then acc
  else if String.eqb seg ".." then
    match acc with
    | [] => if allowAboveRoot then [".."] else []
    | top :: below =>
        if String.eqb top ".." then ".." :: acc else below
    end
  else seg :: acc.

Definition normalizeString (p : string) (allowAboveRoot : bool) : string :=
  join "/" (rev (fold_left (normalize_step allowAboveRoot) (split_slash p) [])).

Definition normalize (p : string) : string :=
  if String.eqb p "" then "."
  else
    let isAbsolute := starts_with_slash p in
    let trailingSeparator := ends_with_slash p in
    let q := normalizeString p (negb isAbsolute) in
    if String.eqb q "" then
      (if isAbsolute then "/" else if trailingSeparator then "./" else ".")
    else
      let q' := if trailingSeparator then q +:+ "/" else q in
      if isAbsolute then "/" +:+ q' else q'.

(** [path.join(...args)]: the non-empty arguments glued with [/], then
    normalised. *)
Definition join_args (args : list string) : string :=
  join "/" (filter (fun a => a ≠ "") args).

Definition join (args : list string) : string :=
  let joined := join_args args in
  if String.eqb joined "" then "." else normalize joined.

End Path.


(** ** Exceptions *)

Inductive JsError : Type :=
  | TypeError             (* reading a property of [undefined] or [null] *)
  | NotConvertible        (* TypeError: converting an object to a primitive *)
  | ProviderError         (* [openai.audio.speech.create] rejected *)
  | BodyError             (* [mp3.arrayBuffer()] rejected *)
  | FsError               (* [fs.promises.writeFile] rejected *)
  | SendError             (* the file could not be opened or sent *)
  | RequestAborted        (* the client went away during the transfer *)
  | HeadersAlreadySent.   (* node's ERR_HTTP_HEADERS_SENT *)


(** ** express-validator

    The chain API used by [textToSpeech.dto.ts].  A chain selects one field
    and keeps a stack of validations; running it evaluates every validation
    in order (the chain has no [.bail()]) and adds one error per failure to
    the request's validation context. *)

Module Validator.

Inductive Validation : Type :=
  | CustomValidation (validator : JsValue -> bool) (message : string)
  | StandardValidation (validator : string -> bool) (message : string).

Record Chain : Type := mkChain {
  location : string;
  path : string;
  stack : list Validation
}.

Record FieldValidationError : Type := mkError {
  err_value : JsValue;
  err_msg : string;
  err_path : string;
  err_location : string
}.

(** Standard validators work on text.  express-validator's
    [toString(value)]: a truthy object with a truthy [toString] is
    converted by its [toString()] (the inherited one when the own property
    is not a function), so an array prints as its [join(',')]; [null] and
    [undefined] give the empty string; everything else goes through
    [isNaN(value)] and [String(value)].  For an object whose own
    [toString] is falsy, [isNaN] has to convert the object to a number and
    throws the TypeError ([None]). *)
Definition toString (v : JsValue) : option string :=
  match v with
  | JUndefined | JNull => Some ""
  | JObj fields =>
      if has_own "toString" fields && negb (truthy (assoc_get "toString" fields))
      then None
      else Some "[object Object]"
  | _ => js_String v
  end.

(** validator.js [isLength(str, { min, max })]: [min] defaults to 0 and an
    absent [max] puts no upper bound.  The characters of a [string] are the
    units that [isLength] counts. *)
Definition isLength_str (min : option nat) (max : option nat) (s : string) : bool :=
  let len := String.length s in
  Nat.leb (default 0%nat min) len
  && match max with Some m => Nat.leb len m | None => true end.

Definition message_of (item : Validation) : string :=
  match item with
  | CustomValidation _ m => m
  | StandardValidation _ m => m
  end.

Definition set_message (m : string) (item : Validation) : Validation :=
  match item with
  | CustomValidation f _ => CustomValidation f m
  | StandardValidation f _ => StandardValidation f m
  end.

(** The builder: [body(field)], then validators appended one by one;
    [withMessage] sets the message of the validator added last. *)
Definition body (field : string) : Chain :=
  {| location := "body"; path := field; stack := [] |}.

Definition add_item (item : Validation) (c : Chain) : Chain :=
  {| location := location c; path := path c; stack := stack c ++ [item] |}.

Definition isString : Chain -> Chain :=
  add_item (CustomValidation is_js_string "Invalid value").

Definition isLength (min max : option nat) : Chain -> Chain :=
  add_item (StandardValidation (isLength_str min max) "Invalid value").

Fixpoint set_last_message (m : string) (items : list Validation) : list Validation :=
  match items with
  | [] => []
  | [item] => [set_message m item]
  | item :: rest => item :: set_last_message m rest
  end.

Definition withMessage (m : string) (c : Chain) : Chain :=
  {| location := location c; path := path c; stack := set_last_message m (stack c) |}.

(** The values a standard validator is applied to: the items of an
    array, or the value itself. *)
Definition values_of (v : JsValue) : list JsValue :=
  match v with JArr items => items | _ => [v] end.

(** A standard validator over the values it is applied to, in order: the
    errors found, and the exception that stopped the loop, if any. *)
Fixpoint check_values (validator : string -> bool)
    (error_for : JsValue -> FieldValidationError) (values : list JsValue)
  : list FieldValidationError * option JsError :=
  match values with
  | [] => ([], None)
  | v :: rest =>
      match toString v with
      | None => ([], Some NotConvertible)
      | Some text =>
          let here := if validator text then [] else [error_for v] in
          let '(more, thrown) := check_values validator error_for rest in
          (here ++ more, thrown)
      end
  end.

(** One validation against the selected value.  A custom validator sees
    the value as it is; a standard validator is applied to the text of
    the value, or of each item when the value is an array. *)
Definition run_item (c : Chain) (value : JsValue) (item : Validation)
  : list FieldValidationError * option JsError :=
  let error_for v :=
    {| err_value := v; err_msg := message_of item;
       err_path := path c; err_location := location c |} in
  match item with
  | CustomValidation validator _ =>
      (if validator value then [] else [error_for value], None)
  | StandardValidation validator _ =>
      check_values validator error_for (values_of value)
  end.


(** The items of a chain in order (the chain has no [.bail()]): errors
    pile up in the context; an exception ends the run. *)
Fixpoint run_stack (c : Chain) (value : JsValue) (items : list Validation)
  : list FieldValidationError * option JsError :=
  match items with
  | [] => ([], None)
  | item :: rest =>
      match run_item c value item with
      | (errors, Some e) => (errors, Some e)
      | (errors, None) =>
          let '(more, thrown) := run_stack c value rest in
          (errors ++ more, thrown)
      end
  end.

(** Running a chain on a request body: the errors in its context, and the
    exception the run ended with, if any. *)
Definition run (c : Chain) (req_body : JsValue)
  : list FieldValidationError * option JsError :=
  run_stack c (select_field req_body (path c)) (stack c).

(** What [errors.array()] puts in the response for one error. *)
Definition error_json (e : FieldValidationError) : JsValue :=
  JObj [("type", JStr "field"); ("value", err_value e); ("msg", JStr (err_msg e));
        ("path", JStr (err_path e)); ("location", JStr (err_location e))].

End Validator.

Notation "c |> f" := (f c) (at level 45, left associativity, only parsing).

(** [textToSpeech.dto.ts] *)
Definition textToSpeechDto : list Validator.Chain :=
  [ Validator.body "text"
      |> Validator.isString
      |> Validator.withMessage "Text must be a string"
      |> Validator.isLength (Some 1%nat) None
      |> Validator.withMessage "Text must not be empty"
      |> Validator.isLength None (Some 500%nat)
      |> Validator.withMessage "Text must not exceed 500 characters" ].

(** ** uuid

    [uuidv4()] returns the canonical text of a random identifier: 36
    characters, lower-case hexadecimal digits in groups of 8-4-4-4-12
    separated by dashes. *)

Definition is_hex (c : ascii) : bool :=
  let n := nat_of_ascii c in
  (Nat.leb 48 n && Nat.leb n 57) || (Nat.leb 97 n && Nat.leb n 102).

Definition dash_position (i : nat) : bool :=
  Nat.eqb i 8 || Nat.eqb i 13 || Nat.eqb i 18 || Nat.eqb i 23.

Fixpoint uuid_chars (i : nat) (s : string) : bool :=
  match s with
  | EmptyString => true
  | String c rest =>
      (if dash_position i then Ascii.eqb c "-"%char else is_hex c)
      && uuid_chars (S i) rest
  end.

Definition is_uuid (u : string) : bool :=
  Nat.eqb (String.length u) 36 && uuid_chars 0 u.


(** ** The world around one request *)

Record SpeechParams : Type := mkSpeechParams {
  model : string;
  voice : string;
  input : JsValue
}.

(** The provider's answer; [arrayBuffer()] on it yields the audio or fails. *)
Record SpeechResponse : Type := mkSpeechResponse {
  audio : option bytes
}.

Inductive SendOutcome : Type :=
  | SendCompletes           (* the whole file reaches the client *)
  | SendFailsBeforeHeaders  (* nothing was written to the socket *)
  | SendAbortedMidway.      (* headers and part of the file were written *)

(** Everything decided outside the program during one request. *)
Record Env : Type := mkEnv {
  env_dirname : string;                                  (* [__dirname] of the service *)
  env_disk : gmap string bytes;                          (* files present beforehand *)
  env_speech : SpeechParams -> option SpeechResponse;    (* [None]: the call rejects *)
  env_uuid : string;                                     (* what [uuidv4()] draws *)
  env_write : bool;                                      (* does [writeFile] succeed *)
  env_write_partial : option nat;
    (* a failing [writeFile]: [None] when the file could not be opened,
       [Some n] when it was created or truncated and [n] bytes got
       written before the failure *)
  env_test : bool;                                       (* is NODE_ENV ['test'] *)
  env_send : SendOutcome                                 (* fate of the file transfer *)
}.

Inductive Body : Type :=
  | BodyJson (v : JsValue)
  | BodyText (s : string)
  | BodyFile (data : bytes)
  | BodyTruncated
  | BodyErrorPage.   (* the HTML page of Express's default error handler *)

(** A response as it went on the wire. *)
Record HttpResponse : Type := mkHttpResponse {
  status : Z;
  filename : option string;    (* [Content-Disposition: attachment; filename=...] *)
  payload : Body
}.

(** The closure handed to [res.download], by name. *)
Inductive Callback : Type :=
  | ControllerDownloadCallback.

Record PendingDownload : Type := mkPending {
  dl_path : string;
  dl_name : string;
  dl_callback : Callback
}.

(** Express's [res] object. *)
Record Response : Type := mkResponse {
  statusCode : Z;
  headersSent : bool;
  sent : list HttpResponse;                 (* oldest first *)
  download_calls : list (string * string)   (* arguments of [res.download] *)
}.

Record World : Type := mkWorld {
  speech_calls : list SpeechParams;   (* calls made to the provider, oldest first *)
  files : gmap string bytes;          (* local storage *)
  console : list string;              (* [console.error] lines *)
  res : Response;
  pending : list PendingDownload      (* transfers started, callback not yet run *)
}.

Definition initial_world (env : Env) : World :=
  {| speech_calls := [];
     files := env_disk env;
     console := [];
     res := {| statusCode := 200; headersSent := false; sent := []; download_calls := [] |};
     pending := [] |}.

Definition with_res (r : Response) (w : World) : World :=
  {| speech_calls := speech_calls w; files := files w; console := console w;
     res := r; pending := pending w |}.

Definition log_call (p : SpeechParams) (w : World) : World :=
  {| speech_calls := speech_calls w ++ [p]; files := files w; console := console w;
     res := res w; pending := pending w |}.

Definition store_file (p : string) (data : bytes) (w : World) : World :=
  {| speech_calls := speech_calls w; files := <[p := data]> (files w);
     console := console w; res := res w; pending := pending w |}.

Definition log_console (line : string) (w : World) : World :=
  {| speech_calls := speech_calls w; files := files w;
     console := console w ++ [line]; res := res w; pending := pending w |}.

Definition with_pending (ds : list PendingDownload) (w : World) : World :=
  {| speech_calls := speech_calls w; files := files w; console := console w;
     res := res w; pending := ds |}.

Definition set_status (code : Z) (w : World) : World :=
  let r := res w in
  with_res {| statusCode := code; headersSent := headersSent r;
              sent := sent r; download_calls := download_calls r |} w.

Definition start_download (p name : string) (cb : Callback) (w : World) : World :=
  let r := res w in
  with_pending (pending w ++ [{| dl_path := p; dl_name := name; dl_callback := cb |}])
    (with_res {| statusCode := statusCode r; headersSent := headersSent r;
                 sent := sent r;
                 download_calls := download_calls r ++ [(p, name)] |} w).

(** ** A monad for code that reads the environment, changes the world and
    may throw *)

Inductive Outcome (A : Type) : Type :=
  | Ok (a : A)
  | Throw (e : JsError).
Arguments Ok {A} a.
Arguments Throw {A} e.

Definition M (A : Type) : Type := Env -> World -> Outcome A * World.

Definition ret {A} (a : A) : M A := fun _ w => (Ok a, w).

Definition throw {A} (e : JsError) : M A := fun _ w => (Throw e, w).

Definition bind {A B} (m : M A) (k : A -> M B) : M B :=
  fun env w =>
    match m env w with
    | (Ok a, w') => k a env w'
    | (Throw e, w') => (Throw e, w')
    end.

(** [try { m } catch (error) { handler error }] *)
Definition try_catch {A} (m : M A) (handler : JsError -> M A) : M A :=
  fun env w =>
    match m env w with
    | (Ok a, w') => (Ok a, w')
    | (Throw e, w') => handler e env w'
    end.

Declare Scope js_scope.
Delimit Scope js_scope with js.
Notation "x <- m ;; k" := (bind m (fun x => k))
  (at level 100, m at next level, right associativity) : js_scope.
Notation "m ;;; k" := (bind m (fun _ => k))
  (at level 100, right associativity) : js_scope.
Open Scope js_scope.

(** *** Primitive effects *)

Definition console_error (line : string) : M unit :=
  fun _ w => (Ok tt, log_console line w).

(** [openai.audio.speech.create(params)] *)
Definition speech_create (p : SpeechParams) : M SpeechResponse :=
  fun env w =>
    match env_speech env p with
    | Some r => (Ok r, log_call p w)
    | None => (Throw ProviderError, log_call p w)
    end.

Definition uuidv4 : M string := fun env w => (Ok (env_uuid env), w).

Definition dirname : M string := fun env w => (Ok (env_dirname env), w).

(** [mp3.arrayBuffer()] followed by [Buffer.from] *)
Definition arrayBuffer (r : SpeechResponse) : M bytes :=
  match audio r with
  | Some b => ret b
  | None => throw BodyError
  end.

(** [fs.promises.writeFile(path, data)]: opens the file with flag [w]
    (create or truncate), then writes.  A write that fails after the file
    was opened leaves what had been written so far. *)
Definition writeFile (p : string) (data : bytes) : M unit :=
  fun env w =>
    if env_write env then (Ok tt, store_file p data w)
    else
      match env_write_partial env with
      | Some n => (Throw FsError, store_file p (take n data) w)
      | None => (Throw FsError, w)
      end.

(** [res.status(code)] only records the code. *)
Definition res_status (code : Z) : M unit :=
  fun _ w => (Ok tt, set_status code w).

(** Putting a response on the wire: status line and headers, then the
    body.  The headers of a response go out once. *)
Definition emit (f : option string) (b : Body) (w : World) : World :=
  let r := res w in
  with_res {| statusCode := statusCode r; headersSent := true;
              sent := sent r ++ [{| status := statusCode r; filename := f; payload := b |}];
              download_calls := download_calls r |} w.

(** [res.json] and [res.send] set [Content-Type] before they write the
    body, and node's [setHeader] throws ERR_HTTP_HEADERS_SENT once the
    headers of this response have been written. *)
Definition respond (b : Body) : M unit :=
  fun _ w =>
    if headersSent (res w) then (Throw HeadersAlreadySent, w)
    else (Ok tt, emit None b w).

Definition res_json (v : JsValue) : M unit := respond (BodyJson v).

Definition res_send (text : string) : M unit := respond (BodyText text).

(** [res.download(path, name, callback)] starts the transfer and returns;
    the callback runs later, from the event loop. *)
Definition res_download (p name : string) (cb : Callback) : M unit :=
  fun _ w => (Ok tt, start_download p name cb w).

Definition is_nullish (v : JsValue) : bool :=
  match v with JUndefined | JNull => true | _ => false end.

(** [const { text } = obj]: throws on [undefined] and [null]. *)
Definition get_property (o : JsValue) (k : string) : M JsValue :=
  match o with
  | JUndefined | JNull => throw TypeError
  | _ => ret (select_field o k)
  end.

(** ** [textToSpeech.service.ts] *)

Module TextToSpeechService.

Definition convertTextToSpeech (text : JsValue) : M string :=
  mp3 <- speech_create {| model := "tts-1-hd"; voice := "alloy"; input := text |} ;;
  u <- uuidv4 ;;
  let fileName := u +:+ ".mp3" in
  d <- dirname ;;
  let filePath := Path.join [d; "../../../temp"; fileName] in
  buffer <- arrayBuffer mp3 ;;
  writeFile filePath buffer ;;;
  ret filePath.

End TextToSpeechService.

(** ** [textToSpeech.controller.ts] *)

Module TextToSpeechController.

Definition error_body : JsValue :=
  JObj [("error", JStr "Error converting text to audio")].

(** The function passed to [res.download]. *)
Definition download_callback (err : option JsError) : M unit :=
  match err with
  | Some _ =>
      console_error "Error sending the file:" ;;;
      res_status 500 ;;;
      res_send "Error generating the audio file"
  | None => ret tt
  end.

(** The controller holds the service it was constructed with. *)
Definition convertTextToSpeech (textToSpeechService : JsValue -> M string)
    (req_body : JsValue) : M unit :=
  try_catch
    (text <- get_property req_body "text" ;;
     filePath <- textToSpeechService text ;;
     let fileName := or_default (pop (split_slash filePath)) "output.mp3" in
     res_download filePath fileName ControllerDownloadCallback)
    (fun error =>
       console_error "Error converting text to speech:" ;;;
       res_status 500 ;;;
       res_json error_body).

End TextToSpeechController.

(** ** Express: requests, handlers, the event loop *)

Record Request : Type := mkRequest {
  body : JsValue;
  contexts : list (list Validator.FieldValidationError)
    (* what the validation chains that ran so far attached to the request *)
}.

Definition incoming (b : JsValue) : Request := {| body := b; contexts := [] |}.

(** What a handler does with control: [next()], [next(err)], or neither
    (it ends the request itself). *)
Inductive Step : Type :=
  | Next (req : Request)
  | NextError (e : JsError)
  | Done.

Definition Handler : Type := Request -> M Step.

(** A validation chain used as middleware: it runs the chain inside a
    [try]; on success it attaches the context to the request and calls
    [next()], on an exception it calls [next(err)] and attaches nothing. *)
Definition chain_middleware (c : Validator.Chain) : Handler :=
  fun req =>
    match Validator.run c (body req) with
    | (errors, None) =>
        ret (Next {| body := body req; contexts := contexts req ++ [errors] |})
    | (_, Some e) => ret (NextError e)
    end.

Definition isEmpty {A} (l : list A) : bool :=
  match l with [] => true | _ => false end.

(** [validationResult(req).array()] *)
Definition validationResult (req : Request) : list Validator.FieldValidationError :=
  concat (contexts req).

(** [validationMiddleware.ts] *)
Definition validationMiddleware : Handler :=
  fun req =>
    let errors := validationResult req in
    if negb (isEmpty errors) then
      res_status 400 ;;;
      res_json (JObj [("errors", JArr (map Validator.error_json errors))]) ;;;
      ret Done
    else ret (Next req).

(** The controller as the last handler of the route; it never calls
    [next()]. *)
Definition controller_handler (service : JsValue -> M string) : Handler :=
  fun req =>
    TextToSpeechController.convertTextToSpeech service (body req) ;;;
    ret Done.

(** How Express calls a handler.  The call sits in a [try]: what a plain
    function throws is passed to [next(err)].  An [async] function throws
    nothing at the call; it returns a promise that Express does not look
    at, so what it throws stays uncaught. *)
Inductive Layer : Type :=
  | Plain (h : Handler)
  | Async (h : Handler).

Definition call_layer (l : Layer) (req : Request) : M Step :=
  match l with
  | Plain h => try_catch (h req) (fun e => ret (NextError e))
  | Async h => h req
  end.

(** [textToSpeech.routes.ts]: [router.post('/convert', dto, middleware,
    controller)], the controller being the default instance built on
    [new TextToSpeechService()].  The chain middleware and the
    controller's method are [async] functions. *)
Definition convert_route : list Layer :=
  map (fun c => Async (chain_middleware c)) textToSpeechDto
  ++ [Plain validationMiddleware;
      Async (controller_handler TextToSpeechService.convertTextToSpeech)].

(** Express's default error handler, reached by [next(err)] since the
    application defines none: the error is logged unless NODE_ENV is
    ['test'] (of [err.stack] the first line is kept, name and message);
    if the response has not started, it gets status 500 and an HTML page,
    otherwise the connection is dropped. *)
Definition error_text (e : JsError) : string :=
  match e with
  | TypeError => "TypeError: Cannot destructure property"
  | NotConvertible => "TypeError: Cannot convert object to primitive value"
  | ProviderError => "Error"
  | BodyError => "Error"
  | FsError => "Error"
  | SendError => "Error"
  | RequestAborted => "Error: Request aborted"
  | HeadersAlreadySent => "Error [ERR_HTTP_HEADERS_SENT]"
  end.

Definition default_error_handler (e : JsError) : M unit :=
  fun env w =>
    let w' := if env_test env then w else log_console (error_text e) w in
    if headersSent (res w') then (Ok tt, w')
    else (Ok tt, emit None BodyErrorPage (set_status 500 w')).

(** Express runs the handlers in order, as long as each calls [next()];
    [next(err)] skips the rest and goes to the error handler. *)
Fixpoint dispatch (layers : list Layer) (req : Request) : M unit :=
  match layers with
  | [] => ret tt
  | l :: rest =>
      r <- call_layer l req ;;
      match r with
      | Next req' => dispatch rest req'
      | NextError e => default_error_handler e
      | Done => ret tt
      end
  end.

Definition run_callback (cb : Callback) (err : option JsError) : M unit :=
  match cb with
  | ControllerDownloadCallback => TextToSpeechController.download_callback err
  end.

(** The transfer behind [res.download]: the file is read from local
    storage and streamed with status and [Content-Disposition].  Express
    calls the callback once when the transfer is over: without argument
    after a complete transfer, with the error when the file cannot be read
    or sent (nothing is on the wire then), with a "request aborted" error
    when the client closes the connection while the file is streamed
    (headers and part of the body are on the wire then).  A response whose
    headers are out cannot be used for a transfer. *)
Definition transfer (d : PendingDownload) : M unit :=
  fun env w =>
    if headersSent (res w) then run_callback (dl_callback d) (Some SendError) env w
    else
      match files w !! dl_path d with
      | None => run_callback (dl_callback d) (Some SendError) env w
      | Some data =>
          match env_send env with
          | SendCompletes =>
              run_callback (dl_callback d) None env
                (emit (Some (dl_name d)) (BodyFile data) w)
          | SendFailsBeforeHeaders =>
              run_callback (dl_callback d) (Some SendError) env w
          | SendAbortedMidway =>
              run_callback (dl_callback d) (Some RequestAborted) env
                (emit (Some (dl_name d)) BodyTruncated w)
          end
      end.

Fixpoint run_transfers (ds : list PendingDownload) : M unit :=
  match ds with
  | [] => ret tt
  | d :: rest => transfer d ;;; run_transfers rest
  end.

(** After the handlers returned, the event loop completes the transfers
    they started.  Callbacks run here, outside any [try] of the handler
    that registered them. *)
Definition event_loop : M unit :=
  fun env w => run_transfers (pending w) env (with_pending [] w).

(** One request from arrival to quiescence.  [Throw] as outcome means an
    exception that nothing in the program caught. *)
Definition handle_request (env : Env) (b : JsValue) : Outcome unit * World :=
  (dispatch convert_route (incoming b) ;;; event_loop) env (initial_world env).

(** ** Observations used in the statements *)

Definition the_call (text : string) : SpeechParams :=
  {| model := "tts-1-hd"; voice := "alloy"; input := JStr text |}.

Definition artifact_name (env : Env) : string := env_uuid env +:+ ".mp3".

Definition artifact_path (env : Env) : string :=
  Path.join [env_dirname env; "../../../temp"; artifact_name env].

(** The validation chains of the route on a request body, one after the
    other: the errors they record, and the exception that ended the run,
    if any. *)
Fixpoint run_chains (chains : list Validator.Chain) (b : JsValue)
  : list Validator.FieldValidationError * option JsError :=
  match chains with
  | [] => ([], None)
  | c :: rest =>
      match Validator.run c b with
      | (errors, Some e) => (errors, Some e)
      | (errors, None) =>
          let '(more, thrown) := run_chains rest b in
          (errors ++ more, thrown)
      end
  end.

Definition dto_errors (b : JsValue) : list Validator.FieldValidationError :=
  fst (run_chains textToSpeechDto b).

Definition dto_thrown (b : JsValue) : option JsError :=
  snd (run_chains textToSpeechDto b).

(** The response of Express's default error handler. *)
Definition error_page : HttpResponse :=
  {| status := 500; filename := None; payload := BodyErrorPage |}.

(** The 400 response of [validationMiddleware]. *)
Definition rejection (errors : list Validator.FieldValidationError) : HttpResponse :=
  {| status := 400; filename := None;
     payload := BodyJson (JObj [("errors", JArr (map Validator.error_json errors))]) |}.

(** The audio the service gets hold of and stores, if all goes well: the
    provider answers, the body can be read, the write succeeds. *)
Definition synthesized (env : Env) (text : JsValue) : option bytes :=
  match env_speech env {| model := "tts-1-hd"; voice := "alloy"; input := text |} with
  | Some r =>
      match audio r with
      | Some data => if env_write env then Some data else None
      | None => None
      end
  | None => None
  end.

(** The directory the service writes into. *)
Definition temp_dir (env : Env) : string :=
  Path.join [env_dirname env; "../../../temp"].

Definition hello_env (send : SendOutcome) : Env :=
  {| env_dirname := "/app/dist/modules/text-to-speech";
     env_disk := ∅;
     env_speech := fun _ => Some {| audio := Some [Byte.x49; Byte.x44; Byte.x33] |};
     env_uuid := "9b1deb4d-3b7d-4bad-9bdd-2b0d7b3dcb6d";
     env_write := true;
     env_write_partial := None;
     env_test := false;
     env_send := send |}.


(** Surroundings in which the provider refuses. *)
Definition failing_env : Env :=
  {| env_dirname := "/app/dist/modules/text-to-speech";
     env_disk := ∅;
     env_speech := fun _ => None;
     env_uuid := "9b1deb4d-3b7d-4bad-9bdd-2b0d7b3dcb6d";
     env_write := true;
     env_write_partial := None;
     env_test := false;
     env_send := SendCompletes |}.

Definition hello_body : JsValue := JObj [("text", JStr "Hello, world!")].


(** Does the string contain a [/]. *)
Fixpoint has_slash (s : string) : bool :=
  match s with
  | EmptyString => false
  | String c rest => Ascii.eqb c slash || has_slash rest
  end.

(** A path segment that normalisation keeps as it is. *)
Definition valid_segment (n : string) : Prop :=
  has_slash n = false /\ n <> "" /\ n <> "." /\ n <> "..".

(** An error of the [text] chain. *)
Definition text_error (v : JsValue) (m : string) : Validator.FieldValidationError :=
  {| Validator.err_value := v; Validator.err_msg := m;
     Validator.err_path := "text"; Validator.err_location := "body" |}.

(** The world a failing service leaves behind: the provider was called,
    and a write that broke after opening the file left part of it. *)
Definition leftover (env : Env) (text : JsValue) (w : World) : World :=
  let call := {| model := "tts-1-hd"; voice := "alloy"; input := text |} in
  match env_speech env call with
  | Some r =>
      match audio r, env_write env, env_write_partial env with
      | Some data, false, Some n =>
          store_file (artifact_path env) (take n data) (log_call call w)
      | _, _, _ => log_call call w
      end
  | None => log_call call w
  end.

(** The two length validations of the chain on a value. *)
Definition min_check (v : JsValue) : list Validator.FieldValidationError * option JsError :=
  Validator.check_values (Validator.isLength_str (Some 1%nat) None)
    (fun x => text_error x "Text must not be empty") (Validator.values_of v).

Definition max_check (v : JsValue) : list Validator.FieldValidationError * option JsError :=
  Validator.check_values (Validator.isLength_str None (Some 500%nat))
    (fun x => text_error x "Text must not exceed 500 characters") (Validator.values_of v).

(** The request as the validation chains hand it on. *)
Definition validated (b : JsValue) : Request :=
  {| body := b; contexts := map (fun c => fst (Validator.run c b)) textToSpeechDto |}.

(** What the [catch] branch leaves behind. *)
Definition failed (w : World) : World :=
  emit None (BodyJson TextToSpeechController.error_body)
    (set_status 500 (log_console "Error converting text to speech:" w)).

(** What the download callback leaves behind when the transfer failed. *)
Definition send_failed (w : World) : World :=
  emit None (BodyText "Error generating the audio file")
    (set_status 500 (log_console "Error sending the file:" w)).

(** The handler followed by the event loop. *)
Definition serve (service : JsValue -> M string) (b : JsValue) : M unit :=
  controller_handler service (validated b) ;;; event_loop.

(** The parameters the service sends to the provider. *)
Definition call_of (text : JsValue) : SpeechParams :=
  {| model := "tts-1-hd"; voice := "alloy"; input := text |}.

(** The inputs the validation is there to stop: no [text], a [text] that
    is not a string, an empty one, one of more than 500 characters. *)
Inductive invalid_text : JsValue -> Prop :=
  | text_missing : invalid_text JUndefined
  | text_not_string (v : JsValue) : is_js_string v = false -> invalid_text v
  | text_empty : invalid_text (JStr "")
  | text_too_long (s : string) : (500 < String.length s)%nat -> invalid_text (JStr s).

(** The body the controller sends when the service failed. *)
Definition generic_failure : HttpResponse :=
  {| status := 500; filename := None;
     payload := BodyJson (JObj [("error", JStr "Error converting text to audio")]) |}.

(** The terminal states of a request, by the response that ends it. *)
Inductive Terminal : HttpResponse -> Prop :=
  | Rejected (errors : list Validator.FieldValidationError) :
      errors <> [] -> Terminal (rejection errors)
  | Failed : Terminal generic_failure
  | SendFailed :
      Terminal {| status := 500; filename := None;
                  payload := BodyText "Error generating the audio file" |}
  | Delivered (name : string) (data : bytes) :
      Terminal {| status := 200; filename := Some name; payload := BodyFile data |}.

(** One request, one complete response, nothing thrown past the handlers. *)
Definition one_complete_response (r : Outcome unit * World) : Prop :=
  fst r = Ok tt
  /\ exists response, sent (res (snd r)) = [response] /\ Terminal response.

(** * Proofs *)

(** ** The models at work *)

Example split_example : split_slash "/some/path/to/file.mp3" = [""; "some"; "path"; "to"; "file.mp3"].
Proof. reflexivity. Qed.

Example join_example :
  Path.join ["/app/dist/modules/text-to-speech"; "../../../temp"; "a.mp3"] = "/app/temp/a.mp3".
Proof. reflexivity. Qed.

Example join_relative : Path.join ["a"; "../../../temp"; "x.mp3"] = "../../temp/x.mp3".
Proof. reflexivity. Qed.

Example dto_stack_messages :
  map (fun c => map Validator.message_of (Validator.stack c)) textToSpeechDto
  = [["Text must be a string"; "Text must not be empty";
      "Text must not exceed 500 characters"]].
Proof. reflexivity. Qed.

Example uuid_example : is_uuid "9b1deb4d-3b7d-4bad-9bdd-2b0d7b3dcb6d" = true.
Proof. reflexivity. Qed.


(** ** Strings *)

Section StringFacts.

Lemma app_cons (c : ascii) (s t : string) : String c s +:+ t = String c (s +:+ t).
Proof. reflexivity. Qed.


Lemma app_assoc_str (a b c : string) : (a +:+ b) +:+ c = a +:+ (b +:+ c).
Proof.
  induction a as [|x a IH]; [reflexivity|].
  rewrite !app_cons. by rewrite IH.
Qed.

Lemma app_length (a b : string) :
  String.length (a +:+ b) = (String.length a + String.length b)%nat.
Proof.
  induction a as [|x a IH]; [reflexivity|].
  rewrite app_cons. cbn [String.length]. by rewrite IH.
Qed.

Lemma app_empty_inv (a b : string) : a +:+ b = "" -> a = "" /\ b = "".
Proof. destruct a; [auto | rewrite app_cons; discriminate]. Qed.



Lemma has_slash_app (a b : string) :
  has_slash (a +:+ b) = has_slash a || has_slash b.
Proof.
  induction a as [|x a IH]; [reflexivity|].
  rewrite app_cons. cbn [has_slash]. rewrite IH. by rewrite orb_assoc.
Qed.

Lemma split_slash_nonempty (s : string) : split_slash s <> [].
Proof.
  induction s as [|c s IH]; cbn [split_slash]; [discriminate|].
  destruct (Ascii.eqb c slash); [discriminate|].
  destruct (split_slash s); discriminate.
Qed.

Lemma split_slash_plain (s : string) : has_slash s = false -> split_slash s = [s].
Proof.
  induction s as [|c s IH]; cbn [split_slash has_slash]; [reflexivity|].
  intros [Hc Hs]%orb_false_elim. rewrite Hc, (IH Hs). reflexivity.
Qed.

(** Splitting distributes over a separator. *)
Lemma split_slash_app (a b : string) :
  split_slash (a +:+ "/" +:+ b) = split_slash a ++ split_slash b.
Proof.
  induction a as [|c a IH].
  - reflexivity.
  - rewrite app_cons. cbn [split_slash]. rewrite IH.
    destruct (Ascii.eqb c slash); [reflexivity|].
    destruct (split_slash a) as [|seg segs] eqn:E; [|reflexivity].
    by destruct (split_slash_nonempty a).
Qed.

Lemma split_slash_child (a n : string) :
  has_slash n = false -> split_slash (a +:+ "/" +:+ n) = split_slash a ++ [n].
Proof. intros H. by rewrite split_slash_app, (split_slash_plain n H). Qed.

Lemma ends_with_slash_cons (c : ascii) (s : string) :
  s <> "" -> ends_with_slash (String c s) = ends_with_slash s.
Proof. destruct s; [congruence | reflexivity]. Qed.

Lemma ends_with_slash_app (a b : string) :
  b <> "" -> ends_with_slash (a +:+ b) = ends_with_slash b.
Proof.
  intros Hb. induction a as [|x a IH]; [reflexivity|].
  rewrite app_cons, ends_with_slash_cons; [exact IH|].
  intros [_ ?]%app_empty_inv. contradiction.
Qed.

Lemma ends_with_slash_plain (s : string) : has_slash s = false -> ends_with_slash s = false.
Proof.
  induction s as [|c s IH]; [reflexivity|].
  cbn [has_slash]. intros [Hc Hs]%orb_false_elim.
  destruct s as [|c' s']; [exact Hc|].
  rewrite ends_with_slash_cons by discriminate. by apply IH.
Qed.

Lemma starts_with_slash_app (a b : string) :
  a <> "" -> starts_with_slash (a +:+ b) = starts_with_slash a.
Proof. destruct a; [congruence | reflexivity]. Qed.

Lemma join_snoc (sep : string) (xs : list string) (x : string) :
  xs <> [] -> join sep (xs ++ [x]) = join sep xs +:+ sep +:+ x.
Proof.
  induction xs as [|y ys IH]; [congruence|]. intros _.
  destruct ys as [|z zs]; [reflexivity|].
  change (join sep ((y :: z :: zs) ++ [x]))
    with (y +:+ sep +:+ join sep ((z :: zs) ++ [x])).
  rewrite IH by discriminate.
  change (join sep (y :: z :: zs)) with (y +:+ sep +:+ join sep (z :: zs)).
  by rewrite !app_assoc_str.
Qed.

Lemma join_snoc_nonempty (sep : string) (xs : list string) (x : string) :
  x <> "" -> join sep (xs ++ [x]) <> "".
Proof.
  intros Hx. destruct xs as [|y ys]; [exact Hx|].
  rewrite join_snoc by discriminate.
  intros [_ [_ ?]%app_empty_inv]%app_empty_inv. contradiction.
Qed.

End StringFacts.

(** ** Paths *)

Section PathFacts.


Lemma eqb_false (s t : string) : s <> t -> String.eqb s t = false.
Proof. apply String.eqb_neq. Qed.

Lemma normalize_step_push (allow : bool) (acc : list string) (n : string) :
  valid_segment n -> Path.normalize_step allow acc n = n :: acc.
Proof.
  intros (_ & H0 & H1 & H2). unfold Path.normalize_step.
  by rewrite (eqb_false _ _ H0), (eqb_false _ _ H1), (eqb_false _ _ H2).
Qed.

Lemma stack_child (allow : bool) (p n : string) :
  valid_segment n ->
  fold_left (Path.normalize_step allow) (split_slash (p +:+ "/" +:+ n)) []
  = n :: fold_left (Path.normalize_step allow) (split_slash p) [].
Proof.
  intros Hn. rewrite split_slash_child by apply Hn.
  rewrite fold_left_app. cbn [fold_left]. by apply normalize_step_push.
Qed.

Lemma child_not_trailing (p n : string) :
  valid_segment n -> ends_with_slash (p +:+ "/" +:+ n) = false.
Proof.
  intros (Hs & H0 & _). rewrite ends_with_slash_app by discriminate.
  change ("/" +:+ n) with (String slash n).
  rewrite ends_with_slash_cons by exact H0. by apply ends_with_slash_plain.
Qed.

Lemma child_nonempty (p n : string) : p +:+ "/" +:+ n <> "".
Proof. intros [_ ?]%app_empty_inv. discriminate. Qed.

(** Normalising a path that ends in an ordinary segment: the segment
    stays last, and nothing follows it. *)
Lemma normalize_leaf (p n : string) :
  valid_segment n ->
  let abs := starts_with_slash (p +:+ "/" +:+ n) in
  let below := rev (fold_left (Path.normalize_step (negb abs)) (split_slash p) []) in
  Path.normalize (p +:+ "/" +:+ n)
  = (if abs then "/" else "") +:+ join "/" (below ++ [n]).
Proof.
  intros Hn abs below. unfold Path.normalize, Path.normalizeString.
  rewrite (eqb_false _ _ (child_nonempty p n)).
  rewrite (child_not_trailing p n Hn).
  fold abs. rewrite (stack_child _ p n Hn). cbn [rev]. fold below.
  rewrite eqb_false by (apply join_snoc_nonempty, Hn).
  by destruct abs.
Qed.

(** A file joined onto a directory path sits directly inside the
    normalised directory. *)
Lemma normalize_child (p t n : string) :
  valid_segment t -> valid_segment n ->
  Path.normalize ((p +:+ "/" +:+ t) +:+ "/" +:+ n)
  = Path.normalize (p +:+ "/" +:+ t) +:+ "/" +:+ n.
Proof.
  intros Ht Hn.
  rewrite (normalize_leaf (p +:+ "/" +:+ t) n Hn), (normalize_leaf p t Ht).
  rewrite (starts_with_slash_app (p +:+ "/" +:+ t)) by apply child_nonempty.
  set (abs := starts_with_slash (p +:+ "/" +:+ t)).
  rewrite (stack_child _ p t Ht). cbn [rev].
  rewrite join_snoc by (intros [_ ?]%app_eq_nil; discriminate).
  by rewrite app_assoc_str.
Qed.

Lemma last_segment_child (p n : string) :
  has_slash n = false -> last (split_slash (p +:+ "/" +:+ n)) = Some n.
Proof. intros H. rewrite split_slash_child by exact H. apply last_snoc. Qed.

End PathFacts.

(** ** The artifact's name and path *)

Section ArtifactFacts.

Lemma is_hex_not_slash (c : ascii) : is_hex c = true -> Ascii.eqb c slash = false.
Proof.
  intros H. destruct (Ascii.eqb_spec c slash) as [->|]; [|reflexivity].
  vm_compute in H. discriminate.
Qed.

Lemma uuid_chars_no_slash (u : string) (i : nat) :
  uuid_chars i u = true -> has_slash u = false.
Proof.
  revert i. induction u as [|c u IH]; intros i; [reflexivity|].
  cbn [uuid_chars has_slash]. intros [Hc Hu]%andb_prop.
  rewrite (IH _ Hu), orb_false_r.
  destruct (dash_position i).
  - apply Ascii.eqb_eq in Hc as ->. reflexivity.
  - by apply is_hex_not_slash.
Qed.

Lemma is_uuid_no_slash (u : string) : is_uuid u = true -> has_slash u = false.
Proof. intros [_ H]%andb_prop. by apply uuid_chars_no_slash in H. Qed.

Lemma mp3_name_valid (u : string) : has_slash u = false -> valid_segment (u +:+ ".mp3").
Proof.
  intros Hu. unfold valid_segment. rewrite has_slash_app, Hu.
  split; [reflexivity|].
  assert (4 <= String.length (u +:+ ".mp3"))%nat as Hlen
    by (rewrite app_length; cbn; lia).
  repeat split; intros E; rewrite E in Hlen; cbn in Hlen; lia.
Qed.

Lemma temp_valid : valid_segment "temp".
Proof. repeat split; discriminate. Qed.

(** Both joins, written as a normalisation of [prefix/temp(/name)]. *)
Lemma joins_unfold (d n : string) :
  n <> "" ->
  exists p,
    Path.join [d; "../../../temp"] = Path.normalize (p +:+ "/" +:+ "temp")
    /\ Path.join [d; "../../../temp"; n]
       = Path.normalize ((p +:+ "/" +:+ "temp") +:+ "/" +:+ n).
Proof.
  intros Hn. unfold Path.join, Path.join_args.
  destruct (decide (d = "")) as [->|Hd].
  - exists "../../..". do 2 (rewrite (filter_cons_False _ "") by (intros H; apply H; reflexivity)).
    rewrite !filter_cons_True by done. rewrite filter_nil.
    split; [reflexivity|].
    rewrite eqb_false; [by rewrite app_assoc_str|].
    change (join "/" ["../../../temp"; n]) with ("../../../temp" +:+ "/" +:+ n).
    apply child_nonempty.
  - exists (d +:+ "/" +:+ "../../..").
    rewrite !filter_cons_True by done. rewrite filter_nil.
    change (join "/" [d; "../../../temp"]) with (d +:+ "/" +:+ "../../../temp").
    change (join "/" [d; "../../../temp"; n])
      with (d +:+ "/" +:+ "../../../temp" +:+ "/" +:+ n).
    rewrite !eqb_false by apply child_nonempty.
    by rewrite !app_assoc_str.
Qed.

(** The artifact sits directly inside the temp directory. *)
Lemma artifact_in_temp_dir (env : Env) :
  has_slash (env_uuid env) = false ->
  artifact_path env = temp_dir env +:+ "/" +:+ artifact_name env.
Proof.
  intros Hu. unfold artifact_path, temp_dir.
  pose proof (mp3_name_valid _ Hu) as Hn. fold (artifact_name env) in Hn.
  destruct (joins_unfold (env_dirname env) (artifact_name env)) as (p & -> & ->);
    [apply Hn|].
  apply normalize_child; [apply temp_valid | exact Hn].
Qed.

(** [filePath.split('/').pop()] gives the artifact's name back. *)
Lemma artifact_last_segment (env : Env) :
  has_slash (env_uuid env) = false ->
  pop (split_slash (artifact_path env)) = Some (artifact_name env).
Proof.
  intros Hu. rewrite (artifact_in_temp_dir env Hu). unfold pop.
  apply last_segment_child, (mp3_name_valid _ Hu).
Qed.

Lemma artifact_name_nonempty (env : Env) : artifact_name env <> "".
Proof. unfold artifact_name. intros [_ ?]%app_empty_inv. discriminate. Qed.

Lemma derived_fileName (env : Env) :
  has_slash (env_uuid env) = false ->
  or_default (pop (split_slash (artifact_path env))) "output.mp3" = artifact_name env.
Proof.
  intros Hu. rewrite (artifact_last_segment env Hu). unfold or_default.
  by rewrite (eqb_false _ _ (artifact_name_nonempty env)).
Qed.

End ArtifactFacts.

(** ** Validation *)

Section ValidationFacts.

Abbreviation values_of := Validator.values_of.

(** The three validators of the chain, each with its own outcome. *)
Lemma run_chains_dto (b : JsValue) :
  run_chains textToSpeechDto b =
    let v := select_field b "text" in
    let first := if is_js_string v then [] else [text_error v "Text must be a string"] in
    match min_check v with
    | (e1, Some t) => (first ++ e1, Some t)
    | (e1, None) => let '(e2, t) := max_check v in (first ++ e1 ++ e2, t)
    end.
Proof.
  unfold textToSpeechDto. cbn [run_chains]. unfold Validator.run.
  cbn [Validator.stack Validator.body Validator.isString Validator.isLength
       Validator.withMessage Validator.add_item Validator.set_last_message
       Validator.set_message app Validator.path Validator.location].
  cbn [Validator.run_stack Validator.run_item Validator.message_of Validator.path
       Validator.location].
  cbn zeta. fold (text_error (select_field b "text") "Text must be a string").
  change (Validator.check_values (Validator.isLength_str (Some 1%nat) None) _
            (Validator.values_of (select_field b "text")))
    with (min_check (select_field b "text")).
  change (Validator.check_values (Validator.isLength_str None (Some 500%nat)) _
            (Validator.values_of (select_field b "text")))
    with (max_check (select_field b "text")).
  destruct (min_check (select_field b "text")) as [e1 [t1|]]; [reflexivity|].
  destruct (max_check (select_field b "text")) as [e2 [t2|]];
    by rewrite ?app_nil_r.
Qed.

(** A string is never a problem for the length validators. *)
Lemma dto_string_result (b : JsValue) (text : string) :
  select_field b "text" = JStr text ->
  run_chains textToSpeechDto b =
    (if Nat.eqb (String.length text) 0
     then [text_error (JStr text) "Text must not be empty"]
     else if Nat.ltb 500 (String.length text)
          then [text_error (JStr text) "Text must not exceed 500 characters"]
          else [],
     None).
Proof.
  intros Hsel. rewrite run_chains_dto, Hsel. cbn zeta.
  unfold min_check, max_check.
  cbn [is_js_string Validator.values_of Validator.check_values Validator.toString
       js_String app].
  unfold Validator.isLength_str. unfold default, id.
  change (Nat.leb 0 (String.length text)) with true.
  destruct (Nat.eqb_spec (String.length text) 0) as [E|E].
  - rewrite E. reflexivity.
  - rewrite (proj2 (Nat.leb_le 1 _)) by lia.
    destruct (Nat.ltb_spec 500 (String.length text)).
    + by rewrite (proj2 (Nat.leb_gt _ 500)) by lia.
    + by rewrite (proj2 (Nat.leb_le _ 500)) by lia.
Qed.

Lemma dto_string_errors (b : JsValue) (text : string) :
  select_field b "text" = JStr text ->
  dto_errors b =
    if Nat.eqb (String.length text) 0
    then [text_error (JStr text) "Text must not be empty"]
    else if Nat.ltb 500 (String.length text)
         then [text_error (JStr text) "Text must not exceed 500 characters"]
         else [].
Proof. intros Hsel. unfold dto_errors. by rewrite (dto_string_result b text Hsel). Qed.

Lemma dto_string_completes (b : JsValue) (text : string) :
  select_field b "text" = JStr text -> dto_thrown b = None.
Proof. intros Hsel. unfold dto_thrown. by rewrite (dto_string_result b text Hsel). Qed.

(** Whatever is not a string has its first error, thrown or not. *)
Lemma dto_non_string_errors (b : JsValue) :
  is_js_string (select_field b "text") = false ->
  exists rest,
    dto_errors b = text_error (select_field b "text") "Text must be a string" :: rest.
Proof.
  intros H. unfold dto_errors. rewrite run_chains_dto. cbn zeta. rewrite H.
  destruct (min_check _) as [e1 [t1|]]; [by eexists|].
  destruct (max_check _) as [e2 t2]. by eexists.
Qed.

Lemma dto_thrown_non_string (b : JsValue) (e : JsError) :
  dto_thrown b = Some e -> is_js_string (select_field b "text") = false.
Proof.
  intros H. destruct (select_field b "text") as [| | | |text| |] eqn:Hsel; try reflexivity.
  rewrite (dto_string_completes b text Hsel) in H. discriminate.
Qed.

Lemma dto_thrown_errors (b : JsValue) (e : JsError) :
  dto_thrown b = Some e -> dto_errors b <> [].
Proof.
  intros H%dto_thrown_non_string. destruct (dto_non_string_errors b H) as [rest ->].
  discriminate.
Qed.

Lemma dto_accepts (b : JsValue) (text : string) :
  select_field b "text" = JStr text ->
  (1 <= String.length text <= 500)%nat ->
  dto_errors b = [].
Proof.
  intros Hsel [Hmin Hmax]. rewrite (dto_string_errors b text Hsel).
  destruct (Nat.eqb_spec (String.length text) 0); [lia|].
  destruct (Nat.ltb_spec 500 (String.length text)); [lia|reflexivity].
Qed.

Lemma dto_rejects (b : JsValue) :
  (forall text, select_field b "text" = JStr text ->
                String.length text = 0%nat \/ (500 < String.length text)%nat) ->
  dto_errors b <> [].
Proof.
  intros H.
  destruct (select_field b "text") as [| | | |text| |] eqn:Hsel.
  5: { rewrite (dto_string_errors b text Hsel).
       destruct (H text eq_refl) as [H0|H500].
       - rewrite H0. discriminate.
       - destruct (Nat.eqb_spec (String.length text) 0); [lia|].
         destruct (Nat.ltb_spec 500 (String.length text)); [discriminate|lia]. }
  all: destruct (dto_non_string_errors b) as [rest ->];
    [by rewrite Hsel | discriminate].
Qed.

Lemma dto_depends_on_text (b1 b2 : JsValue) :
  select_field b1 "text" = select_field b2 "text" ->
  run_chains textToSpeechDto b1 = run_chains textToSpeechDto b2.
Proof. intros H. rewrite !run_chains_dto. cbn zeta. by rewrite H. Qed.







End ValidationFacts.


(** ** The pipeline, step by step *)

Section PipelineFacts.


Lemma validationResult_validated (b : JsValue) :
  dto_thrown b = None -> validationResult (validated b) = dto_errors b.
Proof.
  unfold validationResult, dto_errors, dto_thrown, validated, textToSpeechDto.
  cbn [contexts map concat run_chains].
  destruct (Validator.run _ b) as [errors [t|]]; [discriminate|reflexivity].
Qed.

Lemma dispatch_chains (b : JsValue) (env : Env) (w : World) :
  dispatch convert_route (incoming b) env w =
  match dto_thrown b with
  | Some e => default_error_handler e env w
  | None =>
      dispatch [Plain validationMiddleware;
                Async (controller_handler TextToSpeechService.convertTextToSpeech)]
        (validated b) env w
  end.
Proof.
  unfold dto_thrown, validated, convert_route, textToSpeechDto.
  cbn [map app dispatch call_layer run_chains]. unfold bind at 1.
  unfold chain_middleware. cbn [body incoming contexts app].
  destruct (Validator.run _ b) as [errors [t|]]; reflexivity.
Qed.

(** The service, case by case. *)
Lemma service_run (text : JsValue) (env : Env) (w : World) :
  TextToSpeechService.convertTextToSpeech text env w =
  let p := {| model := "tts-1-hd"; voice := "alloy"; input := text |} in
  match env_speech env p with
  | None => (Throw ProviderError, log_call p w)
  | Some r =>
      match audio r with
      | None => (Throw BodyError, log_call p w)
      | Some data =>
          if env_write env
          then (Ok (artifact_path env), store_file (artifact_path env) data (log_call p w))
          else
            match env_write_partial env with
            | Some n =>
                (Throw FsError,
                 store_file (artifact_path env) (take n data) (log_call p w))
            | None => (Throw FsError, log_call p w)
            end
      end
  end.
Proof.
  unfold TextToSpeechService.convertTextToSpeech, bind, speech_create. cbn zeta.
  destruct (env_speech env _) as [r|]; [|reflexivity].
  unfold uuidv4, dirname, arrayBuffer.
  destruct (audio r) as [data|]; [|reflexivity].
  unfold ret, writeFile. fold (artifact_name env). fold (artifact_path env).
  destruct (env_write env); [reflexivity|].
  by destruct (env_write_partial env).
Qed.

Lemma get_property_readable (b : JsValue) (k : string) :
  is_nullish b = false -> get_property b k = ret (select_field b k).
Proof. by destruct b. Qed.


Variable service : JsValue -> M string.

Lemma controller_body_unreadable (b : JsValue) (env : Env) (w : World) :
  b = JUndefined \/ b = JNull ->
  headersSent (res w) = false ->
  TextToSpeechController.convertTextToSpeech service b env w = (Ok tt, failed w).
Proof.
  intros Hb Hh.
  unfold TextToSpeechController.convertTextToSpeech, try_catch, bind.
  destruct Hb as [-> | ->]; cbn [get_property throw];
    unfold console_error, res_status, res_json, respond;
    cbn [res set_status log_console with_res headersSent]; by rewrite Hh.
Qed.

Lemma controller_service_throws (b : JsValue) (env : Env) (w w1 : World) (e : JsError) :
  is_nullish b = false ->
  service (select_field b "text") env w = (Throw e, w1) ->
  headersSent (res w1) = false ->
  TextToSpeechController.convertTextToSpeech service b env w = (Ok tt, failed w1).
Proof.
  intros Hb Hs Hh.
  unfold TextToSpeechController.convertTextToSpeech, try_catch, bind.
  rewrite (get_property_readable b "text" Hb). unfold ret at 1. rewrite Hs.
  unfold console_error, res_status, res_json, respond.
  cbn [res set_status log_console with_res headersSent]. by rewrite Hh.
Qed.

Lemma controller_service_returns (b : JsValue) (env : Env) (w w1 : World) (p : string) :
  is_nullish b = false ->
  service (select_field b "text") env w = (Ok p, w1) ->
  TextToSpeechController.convertTextToSpeech service b env w
  = (Ok tt, start_download p (or_default (pop (split_slash p)) "output.mp3")
              ControllerDownloadCallback w1).
Proof.
  intros Hb Hs.
  unfold TextToSpeechController.convertTextToSpeech, try_catch, bind.
  rewrite (get_property_readable b "text" Hb). unfold ret at 1. by rewrite Hs.
Qed.


Lemma serve_unfold (b : JsValue) (env : Env) (w : World) :
  serve service b env w =
  match TextToSpeechController.convertTextToSpeech service b env w with
  | (Ok _, w') => event_loop env w'
  | (Throw e, w') => (Throw e, w')
  end.
Proof.
  unfold serve, controller_handler, bind. cbn [body validated].
  by destruct (TextToSpeechController.convertTextToSpeech service b env w) as [[|] ?].
Qed.

End PipelineFacts.

Section EventLoopFacts.

Lemma event_loop_idle (env : Env) (w : World) :
  pending w = [] -> event_loop env w = (Ok tt, with_pending [] w).
Proof. intros H. unfold event_loop. by rewrite H. Qed.


Lemma callback_on_error (e : JsError) (env : Env) (w : World) :
  TextToSpeechController.download_callback (Some e) env w =
  if headersSent (res w)
  then (Throw HeadersAlreadySent, set_status 500 (log_console "Error sending the file:" w))
  else (Ok tt, send_failed w).
Proof.
  unfold TextToSpeechController.download_callback, bind, console_error, res_status,
    res_send, respond.
  cbn [res set_status log_console with_res headersSent].
  by destruct (headersSent (res w)).
Qed.

(** One transfer in flight, on a response not yet used, for a file that
    is there. *)
Lemma event_loop_one (env : Env) (w : World) (d : PendingDownload) (data : bytes) :
  pending w = [d] ->
  dl_callback d = ControllerDownloadCallback ->
  headersSent (res w) = false ->
  files w !! dl_path d = Some data ->
  event_loop env w =
  match env_send env with
  | SendCompletes =>
      (Ok tt, emit (Some (dl_name d)) (BodyFile data) (with_pending [] w))
  | SendFailsBeforeHeaders => (Ok tt, send_failed (with_pending [] w))
  | SendAbortedMidway =>
      (Throw HeadersAlreadySent,
       set_status 500 (log_console "Error sending the file:"
                         (emit (Some (dl_name d)) BodyTruncated (with_pending [] w))))
  end.
Proof.
  intros Hp Hcb Hh Hf. unfold event_loop. rewrite Hp.
  cbn [run_transfers]. unfold bind, transfer.
  cbn [res with_pending files]. rewrite Hh, Hf, Hcb. cbn [run_callback].
  destruct (env_send env).
  - reflexivity.
  - rewrite callback_on_error. cbn [res with_pending]. by rewrite Hh.
  - by rewrite callback_on_error.
Qed.

End EventLoopFacts.

(** ** The route as a whole *)

Section RouteFacts.

Abbreviation the_service := TextToSpeechService.convertTextToSpeech.


Lemma service_ok (text : JsValue) (env : Env) (w : World) (data : bytes) :
  synthesized env text = Some data ->
  the_service text env w
  = (Ok (artifact_path env),
     store_file (artifact_path env) data (log_call (call_of text) w)).
Proof.
  unfold synthesized. rewrite service_run. cbn zeta. fold (call_of text).
  destruct (env_speech env _) as [r|]; [|discriminate].
  destruct (audio r); [|discriminate].
  destruct (env_write env); [|discriminate]. by intros [= ->].
Qed.

Lemma service_returns_artifact_path
    (text : JsValue) (env : Env) (w w' : World) (p : string) :
  the_service text env w = (Ok p, w') -> p = artifact_path env.
Proof.
  rewrite service_run. cbn zeta.
  destruct (env_speech env _) as [r|]; [|discriminate].
  destruct (audio r); [|discriminate].
  destruct (env_write env); [by intros [= <- _]|].
  destruct (env_write_partial env); discriminate.
Qed.

Lemma service_fail (text : JsValue) (env : Env) (w : World) :
  synthesized env text = None ->
  exists e, the_service text env w = (Throw e, leftover env text w).
Proof.
  unfold synthesized, leftover. rewrite service_run. cbn zeta.
  destruct (env_speech env _) as [r|]; [|by eexists].
  destruct (audio r); [|by eexists].
  destruct (env_write env); [discriminate|].
  destruct (env_write_partial env); by eexists.
Qed.

(** Apart from the files, a failing service leaves only its call. *)
Lemma leftover_effects (env : Env) (text : JsValue) (w : World) :
  res (leftover env text w) = res w
  /\ pending (leftover env text w) = pending w
  /\ console (leftover env text w) = console w
  /\ speech_calls (leftover env text w) = speech_calls w ++ [call_of text].
Proof.
  unfold leftover. cbn zeta.
  destruct (env_speech env _) as [r|]; [|by repeat split].
  destruct (audio r); [|by repeat split].
  destruct (env_write env); [by repeat split|].
  destruct (env_write_partial env); by repeat split.
Qed.

Lemma leftover_other_files (env : Env) (text : JsValue) (w : World) (p : string) :
  p <> artifact_path env -> files (leftover env text w) !! p = files w !! p.
Proof.
  intros Hp. unfold leftover. cbn zeta.
  destruct (env_speech env _) as [r|]; [|reflexivity].
  destruct (audio r); [|reflexivity].
  destruct (env_write env); [reflexivity|].
  destruct (env_write_partial env); [|reflexivity].
  cbn [files store_file log_call]. by apply lookup_insert_ne.
Qed.

Lemma dto_accepts_inv (b : JsValue) :
  dto_errors b = [] ->
  exists text, select_field b "text" = JStr text
               /\ (1 <= String.length text <= 500)%nat.
Proof.
  intros H.
  destruct (select_field b "text") as [| | | |text| |] eqn:Hsel.
  5: { exists text. split; [reflexivity|].
       rewrite (dto_string_errors b text Hsel) in H.
       destruct (Nat.eqb_spec (String.length text) 0); [discriminate|].
       destruct (Nat.ltb_spec 500 (String.length text)); [discriminate|lia]. }
  all: destruct (dto_non_string_errors b) as [rest Hrest];
    [by rewrite Hsel | rewrite Hrest in H; discriminate].
Qed.

Lemma selected_readable (b : JsValue) (text : string) :
  select_field b "text" = JStr text -> is_nullish b = false.
Proof. by destruct b. Qed.

(** A validator threw: Express's error handler answers. *)
Lemma handle_request_thrown (env : Env) (b : JsValue) (e : JsError) :
  dto_thrown b = Some e ->
  handle_request env b
  = (Ok tt,
     with_pending []
       (emit None BodyErrorPage
          (set_status 500
             (if env_test env then initial_world env
              else log_console (error_text e) (initial_world env))))).
Proof.
  intros H. unfold handle_request. unfold bind at 1. rewrite dispatch_chains, H.
  unfold default_error_handler. by destruct (env_test env).
Qed.

Lemma handle_request_rejected (env : Env) (b : JsValue) :
  dto_thrown b = None ->
  dto_errors b <> [] ->
  handle_request env b
  = (Ok tt, with_pending [] (emit None (payload (rejection (dto_errors b)))
                               (set_status 400 (initial_world env)))).
Proof.
  intros Ht H. unfold handle_request. unfold bind at 1. rewrite dispatch_chains, Ht.
  cbn [dispatch call_layer]. unfold bind, try_catch, validationMiddleware.
  rewrite (validationResult_validated b Ht).
  destruct (dto_errors b) as [|e es]; [congruence|].
  reflexivity.
Qed.

Lemma dto_accepted_completes (b : JsValue) : dto_errors b = [] -> dto_thrown b = None.
Proof.
  intros H. destruct (dto_thrown b) as [e|] eqn:Ht; [|reflexivity].
  by destruct (dto_thrown_errors b e Ht).
Qed.

Lemma handle_request_accepted (env : Env) (b : JsValue) :
  dto_errors b = [] ->
  handle_request env b = serve the_service b env (initial_world env).
Proof.
  intros H. pose proof (dto_accepted_completes b H) as Ht.
  unfold handle_request, serve. unfold bind at 1. rewrite dispatch_chains, Ht.
  cbn [dispatch call_layer]. unfold bind at 1. unfold try_catch, validationMiddleware.
  rewrite (validationResult_validated b Ht), H. cbn [isEmpty negb]. unfold ret at 1.
  unfold controller_handler, bind. cbn [body validated].
  by destruct (TextToSpeechController.convertTextToSpeech the_service b env
                 (initial_world env)) as [[?|?] ?].
Qed.

(** A valid request whose synthesis fails. *)
Lemma handle_request_failed (env : Env) (b : JsValue) (text : string) :
  select_field b "text" = JStr text ->
  (1 <= String.length text <= 500)%nat ->
  synthesized env (JStr text) = None ->
  handle_request env b
  = (Ok tt, with_pending [] (failed (leftover env (JStr text) (initial_world env)))).
Proof.
  intros Hsel Hlen Hsyn.
  rewrite (handle_request_accepted env b (dto_accepts b text Hsel Hlen)).
  rewrite serve_unfold.
  destruct (service_fail (JStr text) env (initial_world env) Hsyn) as [e He].
  destruct (leftover_effects env (JStr text) (initial_world env)) as (Hres & Hpend & _).
  rewrite (controller_service_throws the_service b env (initial_world env)
             (leftover env (JStr text) (initial_world env)) e
             (selected_readable b text Hsel));
    [| by rewrite Hsel | by rewrite Hres].
  apply event_loop_idle. cbn [failed emit set_status log_console with_res pending].
  exact Hpend.
Qed.

(** A valid request whose synthesis succeeds: the transfer decides. *)
Lemma handle_request_synthesized (env : Env) (b : JsValue) (text : string) (data : bytes) :
  select_field b "text" = JStr text ->
  (1 <= String.length text <= 500)%nat ->
  synthesized env (JStr text) = Some data ->
  let name := or_default (pop (split_slash (artifact_path env))) "output.mp3" in
  let w := with_pending []
             (start_download (artifact_path env) name ControllerDownloadCallback
                (store_file (artifact_path env) data
                   (log_call (the_call text) (initial_world env)))) in
  handle_request env b =
  match env_send env with
  | SendCompletes => (Ok tt, emit (Some name) (BodyFile data) w)
  | SendFailsBeforeHeaders => (Ok tt, send_failed w)
  | SendAbortedMidway =>
      (Throw HeadersAlreadySent,
       set_status 500 (log_console "Error sending the file:"
                         (emit (Some name) BodyTruncated w)))
  end.
Proof.
  intros Hsel Hlen Hsyn name w.
  rewrite (handle_request_accepted env b (dto_accepts b text Hsel Hlen)).
  rewrite serve_unfold.
  rewrite (controller_service_returns the_service b env (initial_world env)
             (store_file (artifact_path env) data
                (log_call (call_of (JStr text)) (initial_world env)))
             (artifact_path env) (selected_readable b text Hsel))
    by (rewrite Hsel; by apply service_ok).
  fold name.
  rewrite (event_loop_one env _
             {| dl_path := artifact_path env; dl_name := name;
                dl_callback := ControllerDownloadCallback |} data);
    [reflexivity | reflexivity | reflexivity | reflexivity |].
  cbn [files start_download with_pending with_res store_file dl_path].
  apply lookup_insert_eq.
Qed.

(** The world after a valid request whose synthesis failed, field by
    field. *)
Lemma failed_request_view (env : Env) (text : JsValue) :
  let w := with_pending [] (failed (leftover env text (initial_world env))) in
  res w = {| statusCode := 500; headersSent := true; sent := [generic_failure];
             download_calls := [] |}
  /\ pending w = []
  /\ console w = ["Error converting text to speech:"]
  /\ speech_calls w = [call_of text]
  /\ files w = files (leftover env text (initial_world env)).
Proof.
  destruct (leftover_effects env text (initial_world env)) as (Hres & Hpend & Hcons & Hcalls).
  cbn [failed emit set_status log_console with_res with_pending res pending console
       speech_calls files sent statusCode headersSent download_calls].
  rewrite Hres, Hcons, Hcalls. by repeat split.
Qed.

(** The one response of a request, by what the validation made of it. *)
Lemma response_of_request (env : Env) (b : JsValue) :
  exists r,
    sent (res (snd (handle_request env b))) = [r]
    /\ match dto_thrown b, dto_errors b with
       | Some _, _ => r = error_page
       | None, _ :: _ => r = rejection (dto_errors b)
       | None, [] =>
           (status r = 200 /\ is_Some (filename r))
           \/ (status r = 500 /\ filename r = None /\ payload r <> BodyErrorPage)
       end.
Proof.
  destruct (dto_thrown b) as [e|] eqn:Ht.
  - rewrite (handle_request_thrown env b e Ht). exists error_page.
    by destruct (env_test env).
  - destruct (dto_errors b) as [|e es] eqn:Herr.
    + destruct (dto_accepts_inv b Herr) as (text & Hsel & Hlen).
      destruct (synthesized env (JStr text)) as [data|] eqn:Hsyn.
      * rewrite (handle_request_synthesized env b text data Hsel Hlen Hsyn).
        destruct (env_send env); eexists; (split; [reflexivity|]); cbn [status filename payload].
        -- left. by split; [|eexists].
        -- right. by repeat split.
        -- left. by split; [|eexists].
      * rewrite (handle_request_failed env b text Hsel Hlen Hsyn).
        destruct (failed_request_view env (JStr text)) as (Hres & _).
        cbn [snd]. rewrite Hres. eexists. split; [reflexivity|].
        right. by repeat split.
    + rewrite (handle_request_rejected env b Ht) by (by rewrite Herr).
      eexists. split; [reflexivity|]. by rewrite Herr.
Qed.

End RouteFacts.

(** * The claims *)


Lemma invalid_text_rejected (b : JsValue) :
  invalid_text (select_field b "text") -> dto_errors b <> [].
Proof.
  intros H. apply dto_rejects. intros text Hsel. rewrite Hsel in H.
  inversion H as [|v Hv| |s Hs]; subst; [discriminate|by left|by right].
Qed.

(** C1. A request whose [text] is a string of 1 to 500 characters makes the
    route call the provider exactly once; the call carries that text as
    [input], with the model ["tts-1-hd"] and the voice ["alloy"], whatever
    the request and the environment are. *)
Theorem valid_text_synthesized_once (env : Env) (b : JsValue) (text : string) :
  select_field b "text" = JStr text ->
  (1 <= String.length text <= 500)%nat ->
  speech_calls (snd (handle_request env b))
  = [{| model := "tts-1-hd"; voice := "alloy"; input := JStr text |}].
Proof.
  intros Hsel Hlen.
  destruct (synthesized env (JStr text)) as [data|] eqn:Hsyn.
  - rewrite (handle_request_synthesized env b text data Hsel Hlen Hsyn).
    by destruct (env_send env).
  - rewrite (handle_request_failed env b text Hsel Hlen Hsyn).
    destruct (leftover_effects env (JStr text) (initial_world env)) as (_ & _ & _ & Hcalls).
    exact Hcalls.
Qed.

Lemma valid_text_synthesized_once_witness :
  select_field hello_body "text" = JStr "Hello, world!"
  /\ (1 <= String.length "Hello, world!" <= 500)%nat
  /\ speech_calls (snd (handle_request (hello_env SendCompletes) hello_body))
     = [{| model := "tts-1-hd"; voice := "alloy"; input := JStr "Hello, world!" |}].
Proof.
  split; [reflexivity|]. split; [cbn; lia|].
  apply (valid_text_synthesized_once (hello_env SendCompletes) hello_body "Hello, world!");
    [reflexivity | cbn; lia].
Defined.

(** Invalid input never reaches the provider.  It is answered by the 400
    of the validation middleware when the chain runs through, and by the
    500 page of Express's error handler when a validator throws. *)
Lemma invalid_text_never_synthesized (env : Env) (b : JsValue) :
  invalid_text (select_field b "text") ->
  fst (handle_request env b) = Ok tt
  /\ speech_calls (snd (handle_request env b)) = []
  /\ match dto_thrown b with
     | None =>
         exists errors,
           errors <> []
           /\ sent (res (snd (handle_request env b)))
              = [{| status := 400; filename := None;
                    payload := BodyJson
                                 (JObj [("errors",
                                         JArr (map Validator.error_json errors))]) |}]
     | Some _ => sent (res (snd (handle_request env b))) = [error_page]
     end.
Proof.
  intros H. pose proof (invalid_text_rejected b H) as Herr.
  destruct (dto_thrown b) as [e|] eqn:Ht.
  - rewrite (handle_request_thrown env b e Ht). by destruct (env_test env).
  - rewrite (handle_request_rejected env b Ht Herr).
    split; [reflexivity|]. split; [reflexivity|].
    exists (dto_errors b). split; [exact Herr | reflexivity].
Qed.

(** C2 asks for a 400 whenever [text] is not a string.  The code departs
    from it at [{"text": {"toString": null}}]: the chain has no [.bail()],
    so after [isString] has failed [isLength] still runs, converting the
    object to text throws, and the request is answered by the 500 page of
    Express's error handler.  The provider is not called. *)
Lemma unconvertible_text_gets_500 :
  invalid_text (select_field (JObj [("text", JObj [("toString", JNull)])]) "text")
  /\ dto_thrown (JObj [("text", JObj [("toString", JNull)])]) = Some NotConvertible
  /\ fst (handle_request (hello_env SendCompletes)
            (JObj [("text", JObj [("toString", JNull)])])) = Ok tt
  /\ sent (res (snd (handle_request (hello_env SendCompletes)
                       (JObj [("text", JObj [("toString", JNull)])]))))
     = [{| status := 500; filename := None; payload := BodyErrorPage |}]
  /\ speech_calls (snd (handle_request (hello_env SendCompletes)
                          (JObj [("text", JObj [("toString", JNull)])]))) = [].
Proof.
  split; [by apply text_not_string|]. by repeat split.
Qed.

(** C10. The service checks nothing about its argument: called with any
    string, the empty one and over-long ones included, it calls the
    provider with that string.  The bound of 1 to 500 characters is kept by
    the route alone, where such a string never reaches the provider. *)
Theorem delegate_does_not_validate :
  (forall (s : string) (env : Env) (w : World),
     speech_calls (snd (TextToSpeechService.convertTextToSpeech (JStr s) env w))
     = speech_calls w ++ [{| model := "tts-1-hd"; voice := "alloy"; input := JStr s |}])
  /\ (forall (s : string) (env : Env),
        String.length s = 0%nat \/ (500 < String.length s)%nat ->
        speech_calls (snd (handle_request env (JObj [("text", JStr s)]))) = []).
Proof.
  split.
  - intros s env w. rewrite service_run. cbn zeta.
    destruct (env_speech env _) as [r|]; [|reflexivity].
    destruct (audio r); [|reflexivity].
    destruct (env_write env); [reflexivity|].
    by destruct (env_write_partial env).
  - intros s env Hs.
    rewrite handle_request_rejected; [reflexivity | by apply (dto_string_completes _ s) |].
    apply dto_rejects. intros text [= <-]. exact Hs.
Qed.

Lemma delegate_does_not_validate_witness :
  speech_calls (snd (TextToSpeechService.convertTextToSpeech (JStr "")
                       (hello_env SendCompletes) (initial_world (hello_env SendCompletes))))
  = [{| model := "tts-1-hd"; voice := "alloy"; input := JStr "" |}]
  /\ speech_calls (snd (handle_request (hello_env SendCompletes) (JObj [("text", JStr "")])))
     = [].
Proof.
  split.
  - exact (proj1 delegate_does_not_validate "" (hello_env SendCompletes)
             (initial_world (hello_env SendCompletes))).
  - apply (proj2 delegate_does_not_validate "" (hello_env SendCompletes)).
    left. reflexivity.
Defined.



(** A missing [text] breaks two rules, and both are in the response. *)
Example missing_text_two_messages :
  map Validator.err_msg (dto_errors (JObj []))
  = ["Text must be a string"; "Text must not be empty"].
Proof. reflexivity. Qed.

Example empty_text_message :
  map Validator.err_msg (dto_errors (JObj [("text", JStr "")])) = ["Text must not be empty"].
Proof. reflexivity. Qed.

Example number_text_message :
  map Validator.err_msg (dto_errors (JObj [("text", JNum "42")])) = ["Text must be a string"].
Proof. reflexivity. Qed.

Example long_text_message :
  map Validator.err_msg (dto_errors (JObj [("text", JStr (String.concat "" (repeat "a" 501)))]))
  = ["Text must not exceed 500 characters"].
Proof. vm_compute. reflexivity. Qed.

(** C3. Whenever the service the controller was built with fails, for
    whatever reason, the response is a 500 whose body is exactly
    [{ error: "Error converting text to audio" }], and [res.download] is
    not called.  The service is any computation that leaves the response
    object alone. *)
Theorem delegate_failure_gives_500
    (service : JsValue -> M string) (env : Env) (b : JsValue) (e : JsError) (w1 : World) :
  service (select_field b "text") env (initial_world env) = (Throw e, w1) ->
  res w1 = res (initial_world env) ->
  pending w1 = [] ->
  exists w,
    (controller_handler service (incoming b) ;;; event_loop) env (initial_world env)
    = (Ok tt, w)
    /\ sent (res w)
       = [{| status := 500; filename := None;
             payload := BodyJson (JObj [("error", JStr "Error converting text to audio")]) |}]
    /\ download_calls (res w) = [].
Proof.
  intros Hs Hres Hpend.
  change ((controller_handler service (incoming b) ;;; event_loop) env (initial_world env))
    with (serve service b env (initial_world env)).
  rewrite serve_unfold.
  destruct (is_nullish b) eqn:Hb.
  - rewrite controller_body_unreadable;
      [| destruct b; try discriminate; auto | reflexivity].
    eexists. split; [by apply event_loop_idle|]. by split.
  - rewrite (controller_service_throws service b env _ w1 e Hb Hs)
      by (by rewrite Hres).
    eexists. split; [by apply event_loop_idle|].
    cbn [failed emit set_status log_console with_res with_pending res sent download_calls
         statusCode].
    rewrite Hres. by split.
Qed.

Lemma delegate_failure_gives_500_witness :
  exists w,
    (controller_handler TextToSpeechService.convertTextToSpeech (incoming hello_body)
       ;;; event_loop) failing_env (initial_world failing_env) = (Ok tt, w)
    /\ sent (res w)
       = [{| status := 500; filename := None;
             payload := BodyJson (JObj [("error", JStr "Error converting text to audio")]) |}]
    /\ download_calls (res w) = [].
Proof.
  apply (delegate_failure_gives_500 TextToSpeechService.convertTextToSpeech failing_env
           hello_body ProviderError
           (log_call {| model := "tts-1-hd"; voice := "alloy";
                        input := JStr "Hello, world!" |} (initial_world failing_env)));
    reflexivity.
Defined.

(** The service has no hand on the response object, and starts no
    transfer. *)
Lemma service_frame (text : JsValue) (env : Env) (w : World) :
  res (snd (TextToSpeechService.convertTextToSpeech text env w)) = res w
  /\ pending (snd (TextToSpeechService.convertTextToSpeech text env w)) = pending w.
Proof.
  rewrite service_run. cbn zeta.
  destruct (env_speech env _) as [r|]; [|by split].
  destruct (audio r); [|by split].
  destruct (env_write env); [by split|].
  by destruct (env_write_partial env).
Qed.

(** The two cases of [textToSpeech.controller.test.ts], with the service
    replaced by a stub as the test does. *)
Example controller_test_resolved :
  download_calls
    (res (snd (TextToSpeechController.convertTextToSpeech
                 (fun _ => ret "/some/path/to/file.mp3") hello_body
                 failing_env (initial_world failing_env))))
  = [("/some/path/to/file.mp3", "file.mp3")].
Proof. reflexivity. Qed.

Example controller_test_rejected :
  sent (res (snd (TextToSpeechController.convertTextToSpeech
                    (fun _ => throw ProviderError) hello_body
                    failing_env (initial_world failing_env))))
  = [generic_failure].
Proof. reflexivity. Qed.

Lemma uuid_name_not_fallback (u : string) :
  is_uuid u = true -> u +:+ ".mp3" <> "output.mp3".
Proof.
  intros [Hlen _]%andb_prop E. apply Nat.eqb_eq in Hlen.
  apply (f_equal String.length) in E. rewrite app_length, Hlen in E. cbn in E. lia.
Qed.

(** C7. For the path the service returns, the controller's
    [filePath.split('/').pop()] succeeds and gives the artifact's own name
    [<uuid>.mp3]: the name is not empty, so the ['output.mp3'] fallback is
    not taken, and what the controller hands to [res.download] beside the
    path is that name. *)
Theorem advertised_name_is_artifact_name
    (env : Env) (b : JsValue) (w w1 : World) (filePath : string) :
  is_uuid (env_uuid env) = true ->
  is_nullish b = false ->
  TextToSpeechService.convertTextToSpeech (select_field b "text") env w = (Ok filePath, w1) ->
  filePath = Path.join [env_dirname env; "../../../temp"; env_uuid env +:+ ".mp3"]
  /\ pop (split_slash filePath) = Some (env_uuid env +:+ ".mp3")
  /\ env_uuid env +:+ ".mp3" <> ""
  /\ env_uuid env +:+ ".mp3" <> "output.mp3"
  /\ exists w',
       TextToSpeechController.convertTextToSpeech
         TextToSpeechService.convertTextToSpeech b env w = (Ok tt, w')
       /\ download_calls (res w')
          = download_calls (res w) ++ [(filePath, env_uuid env +:+ ".mp3")].
Proof.
  intros Hu Hb Hrun.
  pose proof (uuid_name_not_fallback _ Hu) as Hfb.
  apply is_uuid_no_slash in Hu.
  pose proof (service_frame (select_field b "text") env w) as [Hres _].
  rewrite Hrun in Hres. cbn [snd] in Hres.
  pose proof (service_returns_artifact_path _ _ _ _ _ Hrun) as ->.
  split; [reflexivity|]. split; [by apply artifact_last_segment|].
  split; [apply artifact_name_nonempty|]. split; [exact Hfb|].
  eexists. split.
  - by apply (controller_service_returns TextToSpeechService.convertTextToSpeech
                b env w w1 (artifact_path env)).
  - cbn [start_download with_pending with_res res download_calls].
    by rewrite (derived_fileName env Hu), Hres.
Qed.

Lemma advertised_name_is_artifact_name_witness :
  exists w',
    TextToSpeechController.convertTextToSpeech TextToSpeechService.convertTextToSpeech
      hello_body (hello_env SendCompletes) (initial_world (hello_env SendCompletes))
    = (Ok tt, w')
    /\ download_calls (res w')
       = download_calls (res (initial_world (hello_env SendCompletes)))
         ++ [("/app/temp/9b1deb4d-3b7d-4bad-9bdd-2b0d7b3dcb6d.mp3",
              "9b1deb4d-3b7d-4bad-9bdd-2b0d7b3dcb6d" +:+ ".mp3")].
Proof.
  apply (advertised_name_is_artifact_name (hello_env SendCompletes) hello_body
           (initial_world (hello_env SendCompletes))
           (snd (TextToSpeechService.convertTextToSpeech (JStr "Hello, world!")
                   (hello_env SendCompletes) (initial_world (hello_env SendCompletes))))
           "/app/temp/9b1deb4d-3b7d-4bad-9bdd-2b0d7b3dcb6d.mp3");
    reflexivity.
Defined.



(** C4. When the provider answers a valid request with the bytes [data]
    and the write goes through, the service names the file [<uuid>.mp3],
    stores exactly [data] under that name directly inside the temp
    directory and returns that path; the controller hands path and name to
    [res.download], and a transfer that completes delivers an attachment of
    that name holding [data]. *)
Theorem artifact_stored_and_downloaded
    (env : Env) (b : JsValue) (text : string) (data : bytes) :
  select_field b "text" = JStr text ->
  (1 <= String.length text <= 500)%nat ->
  is_uuid (env_uuid env) = true ->
  env_speech env {| model := "tts-1-hd"; voice := "alloy"; input := JStr text |}
  = Some {| audio := Some data |} ->
  env_write env = true ->
  let name := env_uuid env +:+ ".mp3" in
  let filePath := Path.join [env_dirname env; "../../../temp"; name] in
  filePath = Path.join [env_dirname env; "../../../temp"] +:+ "/" +:+ name
  /\ (forall w, exists w',
        TextToSpeechService.convertTextToSpeech (JStr text) env w = (Ok filePath, w')
        /\ files w' = <[filePath := data]> (files w))
  /\ download_calls (res (snd (handle_request env b))) = [(filePath, name)]
  /\ files (snd (handle_request env b)) !! filePath = Some data
  /\ (env_send env = SendCompletes ->
      fst (handle_request env b) = Ok tt
      /\ sent (res (snd (handle_request env b)))
         = [{| status := 200; filename := Some name; payload := BodyFile data |}]).
Proof.
  intros Hsel Hlen Hu%is_uuid_no_slash Hsp Hwr name filePath.
  assert (synthesized env (JStr text) = Some data) as Hsyn
    by (unfold synthesized; by rewrite Hsp, Hwr).
  change filePath with (artifact_path env). change name with (artifact_name env).
  split; [by apply artifact_in_temp_dir|]. split.
  { intros w. eexists. split; [by apply service_ok|reflexivity]. }
  rewrite (handle_request_synthesized env b text data Hsel Hlen Hsyn).
  rewrite (derived_fileName env Hu).
  split; [by destruct (env_send env)|]. split.
  - destruct (env_send env);
      cbn [snd files emit send_failed set_status log_console with_res with_pending
           start_download store_file];
      apply lookup_insert_eq.
  - by intros ->.
Qed.

Lemma artifact_stored_and_downloaded_witness :
  download_calls (res (snd (handle_request (hello_env SendCompletes) hello_body)))
  = [("/app/temp/9b1deb4d-3b7d-4bad-9bdd-2b0d7b3dcb6d.mp3",
      "9b1deb4d-3b7d-4bad-9bdd-2b0d7b3dcb6d.mp3")]
  /\ sent (res (snd (handle_request (hello_env SendCompletes) hello_body)))
     = [{| status := 200; filename := Some "9b1deb4d-3b7d-4bad-9bdd-2b0d7b3dcb6d.mp3";
           payload := BodyFile [Byte.x49; Byte.x44; Byte.x33] |}].
Proof.
  destruct (artifact_stored_and_downloaded (hello_env SendCompletes) hello_body
              "Hello, world!" [Byte.x49; Byte.x44; Byte.x33])
    as (_ & _ & Hdl & _ & Hsend);
    [reflexivity | cbn; lia | reflexivity | reflexivity | reflexivity |].
  split; [exact Hdl | exact (proj2 (Hsend eq_refl))].
Defined.


(** C6 as stated fails: a transfer that breaks before anything was sent is
    not answered with the JSON body of a synthesis failure. *)
Lemma send_failure_body_is_not_json :
  synthesized (hello_env SendFailsBeforeHeaders) (JStr "Hello, world!")
  = Some [Byte.x49; Byte.x44; Byte.x33]
  /\ sent (res (snd (handle_request (hello_env SendFailsBeforeHeaders) hello_body)))
     <> [generic_failure].
Proof. split; [reflexivity|]. vm_compute. discriminate. Qed.

(** C6, amended. When the transfer of the generated file fails before any
    of the response went out, the response is a 500 whose body is the plain
    text ["Error generating the audio file"]. *)
Theorem send_failure_gives_text_500
    (env : Env) (b : JsValue) (text : string) (data : bytes) :
  select_field b "text" = JStr text ->
  (1 <= String.length text <= 500)%nat ->
  synthesized env (JStr text) = Some data ->
  env_send env = SendFailsBeforeHeaders ->
  fst (handle_request env b) = Ok tt
  /\ sent (res (snd (handle_request env b)))
     = [{| status := 500; filename := None;
           payload := BodyText "Error generating the audio file" |}].
Proof.
  intros Hsel Hlen Hsyn Hsend.
  rewrite (handle_request_synthesized env b text data Hsel Hlen Hsyn), Hsend.
  by split.
Qed.

Lemma send_failure_gives_text_500_witness :
  fst (handle_request (hello_env SendFailsBeforeHeaders) hello_body) = Ok tt
  /\ sent (res (snd (handle_request (hello_env SendFailsBeforeHeaders) hello_body)))
     = [{| status := 500; filename := None;
           payload := BodyText "Error generating the audio file" |}].
Proof.
  apply (send_failure_gives_text_500 (hello_env SendFailsBeforeHeaders) hello_body
           "Hello, world!" [Byte.x49; Byte.x44; Byte.x33]);
    [reflexivity | cbn; lia | reflexivity | reflexivity].
Defined.


(** C9 asks for one complete response per request and for no error
    leaving the handlers.  The code departs from it when the client goes
    away in the middle of the download: the response on the wire is a
    truncated file, and the callback given to [res.download] then calls
    [res.status(500).send(...)] without looking at [res.headersSent]; the
    call throws, and the callback runs outside the handler's [try]. *)
Lemma aborted_download_escapes :
  fst (handle_request (hello_env SendAbortedMidway) hello_body) = Throw HeadersAlreadySent
  /\ sent (res (snd (handle_request (hello_env SendAbortedMidway) hello_body)))
     = [{| status := 200; filename := Some "9b1deb4d-3b7d-4bad-9bdd-2b0d7b3dcb6d.mp3";
           payload := BodyTruncated |}]
  /\ ~ one_complete_response (handle_request (hello_env SendAbortedMidway) hello_body).
Proof.
  split; [reflexivity|]. split; [reflexivity|].
  intros [H _]. vm_compute in H. discriminate.
Qed.

(** * Further properties of the code *)

(** ** The validation chain of [textToSpeech.dto.ts] *)

(** X1. The chain lets a request through exactly when its [text] is a
    string of 1 to 500 characters. *)
Theorem validation_passes_iff (b : JsValue) :
  dto_errors b = []
  <-> exists text, select_field b "text" = JStr text
                   /\ (1 <= String.length text <= 500)%nat.
Proof.
  split.
  - apply dto_accepts_inv.
  - intros (text & Hsel & Hlen). by apply (dto_accepts b text).
Qed.

Lemma validation_passes_iff_witness : dto_errors hello_body = [].
Proof.
  apply (proj2 (validation_passes_iff hello_body)).
  exists "Hello, world!". split; [reflexivity | cbn; lia].
Defined.





(** X3. A [text] that is a string gets at most one error: the empty-text
    message for the empty string, the length message for more than 500
    characters, and none in between. *)
Theorem string_text_errors (b : JsValue) (text : string) :
  select_field b "text" = JStr text ->
  dto_errors b =
    if Nat.eqb (String.length text) 0
    then [text_error (JStr text) "Text must not be empty"]
    else if Nat.ltb 500 (String.length text)
         then [text_error (JStr text) "Text must not exceed 500 characters"]
         else [].
Proof. apply dto_string_errors. Qed.

Lemma string_text_errors_witness :
  dto_errors (JObj [("text", JStr "")]) = [text_error (JStr "") "Text must not be empty"].
Proof. apply (string_text_errors (JObj [("text", JStr "")]) ""). reflexivity. Defined.

(** X4. A [text] that is not a string is answered in one of two ways: by
    the 400 of the validation, whose first error then says "Text must be a
    string", before any message about the length; or, when a length
    validator throws on the value, by the 500 page of Express's error
    handler. *)
Theorem non_string_reported_first (env : Env) (b : JsValue) :
  is_js_string (select_field b "text") = false ->
  match dto_thrown b with
  | None =>
      exists rest,
        sent (res (snd (handle_request env b)))
        = [rejection (text_error (select_field b "text") "Text must be a string" :: rest)]
  | Some _ =>
      sent (res (snd (handle_request env b)))
      = [{| status := 500; filename := None; payload := BodyErrorPage |}]
  end.
Proof.
  intros H. destruct (dto_non_string_errors b H) as [rest Hrest].
  destruct (dto_thrown b) as [e|] eqn:Ht.
  - rewrite (handle_request_thrown env b e Ht). by destruct (env_test env).
  - rewrite (handle_request_rejected env b Ht) by (rewrite Hrest; discriminate).
    exists rest. by rewrite Hrest.
Qed.

Lemma non_string_reported_first_witness :
  exists rest,
    sent (res (snd (handle_request (hello_env SendCompletes)
                      (JObj [("text", JArr [JStr "hello"])]))))
    = [rejection (text_error (JArr [JStr "hello"]) "Text must be a string" :: rest)].
Proof.
  apply (non_string_reported_first (hello_env SendCompletes)
           (JObj [("text", JArr [JStr "hello"])])).
  reflexivity.
Defined.

(** X5. A request without [text] (the field is absent, or [null], or the
    body is no object at all) gets exactly two errors, in this order: not a
    string, and empty. *)
Theorem missing_text_errors (b : JsValue) :
  select_field b "text" = JUndefined \/ select_field b "text" = JNull ->
  map Validator.err_msg (dto_errors b)
  = ["Text must be a string"; "Text must not be empty"].
Proof.
  intros H. unfold dto_errors. rewrite run_chains_dto. cbn zeta.
  by destruct H as [-> | ->].
Qed.

Lemma missing_text_errors_witness :
  map Validator.err_msg (dto_errors (JArr []))
  = ["Text must be a string"; "Text must not be empty"].
Proof. apply (missing_text_errors (JArr [])). left. reflexivity. Defined.

(** ** The controller of [textToSpeech.controller.ts] *)

Lemma split_slash_segments (p : string) :
  Forall (fun s => has_slash s = false) (split_slash p).
Proof.
  induction p as [|c p IH]; cbn [split_slash]; [by repeat constructor|].
  destruct (Ascii.eqb c slash) eqn:Hc; [by constructor|].
  destruct (split_slash p) as [|seg segs]; [by repeat constructor; cbn; rewrite Hc|].
  inversion IH as [|? ? Hseg Hsegs]; subst.
  constructor; [|exact Hsegs]. cbn [has_slash]. by rewrite Hc, Hseg.
Qed.

Lemma last_split_slash (p : string) :
  exists s, last (split_slash p) = Some s /\ has_slash s = false.
Proof.
  destruct (last (split_slash p)) as [s|] eqn:E.
  - exists s. split; [reflexivity|].
    apply last_Some in E as [l' E]. pose proof (split_slash_segments p) as H.
    rewrite E in H. apply Forall_app in H as [_ H]. by inversion H.
  - apply last_None in E. by destruct (split_slash_nonempty p).
Qed.

Lemma derived_name_wellformed (filePath : string) :
  or_default (pop (split_slash filePath)) "output.mp3" <> ""
  /\ has_slash (or_default (pop (split_slash filePath)) "output.mp3") = false.
Proof.
  unfold pop. destruct (last_split_slash filePath) as (s & -> & Hs).
  unfold or_default. destruct (String.eqb_spec s "") as [->|Hne]; by split.
Qed.

(** X8. Whatever path the service it was built with returns, the name the
    controller hands to [res.download] beside that path is a non-empty
    string without [/]. *)
Theorem advertised_name_wellformed
    (service : JsValue -> M string) (b : JsValue) (env : Env) (w w1 : World)
    (filePath : string) :
  is_nullish b = false ->
  service (select_field b "text") env w = (Ok filePath, w1) ->
  exists w' name,
    TextToSpeechController.convertTextToSpeech service b env w = (Ok tt, w')
    /\ download_calls (res w') = download_calls (res w1) ++ [(filePath, name)]
    /\ name <> ""
    /\ has_slash name = false.
Proof.
  intros Hb Hs. eexists. exists (or_default (pop (split_slash filePath)) "output.mp3").
  split; [by apply (controller_service_returns service b env w w1 filePath)|].
  split; [reflexivity|]. apply derived_name_wellformed.
Qed.

Lemma advertised_name_wellformed_witness :
  exists w' name,
    TextToSpeechController.convertTextToSpeech (fun _ => ret "/some/path/to/")
      hello_body failing_env (initial_world failing_env) = (Ok tt, w')
    /\ download_calls (res w')
       = download_calls (res (initial_world failing_env)) ++ [("/some/path/to/", name)]
    /\ name <> ""
    /\ has_slash name = false.
Proof.
  apply (advertised_name_wellformed (fun _ => ret "/some/path/to/") hello_body
           failing_env (initial_world failing_env) (initial_world failing_env)
           "/some/path/to/");
    reflexivity.
Defined.

(** X9. The name the controller hands to [res.download] is what follows
    the last [/] of the path the service returned (the whole path when it
    has no [/]); the fallback ['output.mp3'] is taken exactly when that
    part is empty, that is for an empty path or a path ending in [/]. *)
Theorem advertised_name_is_last_segment
    (service : JsValue -> M string) (b : JsValue) (env : Env) (w w1 : World)
    (filePath dir tail : string) :
  is_nullish b = false ->
  has_slash tail = false ->
  filePath = tail \/ filePath = dir +:+ "/" +:+ tail ->
  service (select_field b "text") env w = (Ok filePath, w1) ->
  exists w',
    TextToSpeechController.convertTextToSpeech service b env w = (Ok tt, w')
    /\ download_calls (res w')
       = download_calls (res w1)
         ++ [(filePath, if String.eqb tail "" then "output.mp3" else tail)].
Proof.
  intros Hb Htail Hpath Hs. eexists.
  split; [by apply (controller_service_returns service b env w w1 filePath)|].
  cbn [start_download with_pending with_res res download_calls].
  do 3 f_equal. unfold pop.
  destruct Hpath as [-> | ->].
  - by rewrite (split_slash_plain tail Htail).
  - by rewrite (last_segment_child dir tail Htail).
Qed.

Lemma advertised_name_is_last_segment_witness :
  (exists w',
     TextToSpeechController.convertTextToSpeech (fun _ => ret "/some/path/to/file.mp3")
       hello_body failing_env (initial_world failing_env) = (Ok tt, w')
     /\ download_calls (res w')
        = download_calls (res (initial_world failing_env))
          ++ [("/some/path/to/file.mp3",
               if String.eqb "file.mp3" "" then "output.mp3" else "file.mp3")])
  /\ (exists w',
        TextToSpeechController.convertTextToSpeech (fun _ => ret "/some/path/to/")
          hello_body failing_env (initial_world failing_env) = (Ok tt, w')
        /\ download_calls (res w')
           = download_calls (res (initial_world failing_env))
             ++ [("/some/path/to/", if String.eqb "" "" then "output.mp3" else "")]).
Proof.
  split.
  - apply (advertised_name_is_last_segment (fun _ => ret "/some/path/to/file.mp3")
             hello_body failing_env (initial_world failing_env)
             (initial_world failing_env) "/some/path/to/file.mp3" "/some/path/to"
             "file.mp3");
      [reflexivity | reflexivity | by right | reflexivity].
  - apply (advertised_name_is_last_segment (fun _ => ret "/some/path/to/")
             hello_body failing_env (initial_world failing_env)
             (initial_world failing_env) "/some/path/to/" "/some/path/to" "");
      [reflexivity | reflexivity | by right | reflexivity].
Defined.

(** X6. The controller checks nothing itself: called on any body it can
    read a property of, it hands [req.body.text] to the service as it is,
    string or not, and the service passes it on to the provider. *)
Theorem controller_forwards_raw_text (b : JsValue) (env : Env) (w : World) :
  is_nullish b = false ->
  speech_calls
    (snd (TextToSpeechController.convertTextToSpeech
            TextToSpeechService.convertTextToSpeech b env w))
  = speech_calls w
    ++ [{| model := "tts-1-hd"; voice := "alloy"; input := select_field b "text" |}].
Proof.
  intros Hb.
  unfold TextToSpeechController.convertTextToSpeech, try_catch, bind.
  rewrite (get_property_readable b "text" Hb). unfold ret at 1.
  rewrite service_run. cbn zeta.
  unfold console_error, res_status, res_json, respond.
  destruct (env_speech env _) as [r|].
  - destruct (audio r).
    + destruct (env_write env); [reflexivity|].
      destruct (env_write_partial env);
        cbn [res set_status log_console log_call store_file with_res headersSent];
        by destruct (headersSent (res w)).
    + cbn [res set_status log_console log_call with_res headersSent].
      by destruct (headersSent (res w)).
  - cbn [res set_status log_console log_call with_res headersSent].
    by destruct (headersSent (res w)).
Qed.

Lemma controller_forwards_raw_text_witness :
  speech_calls
    (snd (TextToSpeechController.convertTextToSpeech
            TextToSpeechService.convertTextToSpeech (JObj [("text", JNum "42")])
            (hello_env SendCompletes) (initial_world (hello_env SendCompletes))))
  = [{| model := "tts-1-hd"; voice := "alloy"; input := JNum "42" |}].
Proof.
  apply (controller_forwards_raw_text (JObj [("text", JNum "42")])
           (hello_env SendCompletes) (initial_world (hello_env SendCompletes))).
  reflexivity.
Defined.

(** X7. When [req.body] is [undefined] or [null], reading [text] throws
    inside the [try]: the service is not run, nothing is stored or
    downloaded, and the answer is the 500 with the generic JSON body. *)
Theorem unreadable_body_gives_500
    (service : JsValue -> M string) (b : JsValue) (env : Env) :
  b = JUndefined \/ b = JNull ->
  exists w,
    TextToSpeechController.convertTextToSpeech service b env (initial_world env)
    = (Ok tt, w)
    /\ sent (res w)
       = [{| status := 500; filename := None;
             payload := BodyJson (JObj [("error", JStr "Error converting text to audio")]) |}]
    /\ download_calls (res w) = []
    /\ pending w = []
    /\ speech_calls w = []
    /\ files w = env_disk env
    /\ console w = ["Error converting text to speech:"].
Proof.
  intros Hb. eexists. split.
  - by apply controller_body_unreadable.
  - by repeat split.
Qed.

Lemma unreadable_body_gives_500_witness :
  exists w,
    TextToSpeechController.convertTextToSpeech TextToSpeechService.convertTextToSpeech
      JUndefined (hello_env SendCompletes) (initial_world (hello_env SendCompletes))
    = (Ok tt, w)
    /\ sent (res w)
       = [{| status := 500; filename := None;
             payload := BodyJson (JObj [("error", JStr "Error converting text to audio")]) |}]
    /\ download_calls (res w) = []
    /\ pending w = []
    /\ speech_calls w = []
    /\ files w = env_disk (hello_env SendCompletes)
    /\ console w = ["Error converting text to speech:"].
Proof.
  apply (unreadable_body_gives_500 TextToSpeechService.convertTextToSpeech JUndefined
           (hello_env SendCompletes)).
  left. reflexivity.
Defined.

(** X10. When the service it was built with returns a path, the controller
    sends nothing and logs nothing itself: it passes the path and the name
    derived from it to [res.download], once, and returns. *)
Theorem controller_delegates_success
    (service : JsValue -> M string) (b : JsValue) (env : Env) (w w1 : World)
    (filePath : string) :
  is_nullish b = false ->
  service (select_field b "text") env w = (Ok filePath, w1) ->
  exists w',
    TextToSpeechController.convertTextToSpeech service b env w = (Ok tt, w')
    /\ download_calls (res w')
       = download_calls (res w1)
         ++ [(filePath, or_default (pop (split_slash filePath)) "output.mp3")]
    /\ length (pending w') = S (length (pending w1))
    /\ sent (res w') = sent (res w1)
    /\ statusCode (res w') = statusCode (res w1)
    /\ console w' = console w1
    /\ files w' = files w1.
Proof.
  intros Hb Hs. eexists. split.
  - by apply (controller_service_returns service b env w w1 filePath).
  - cbn [start_download with_pending with_res res download_calls pending sent statusCode
         console files].
    rewrite length_app. cbn [length]. repeat split; lia.
Qed.

Lemma controller_delegates_success_witness :
  exists w',
    TextToSpeechController.convertTextToSpeech (fun _ => ret "/some/path/to/file.mp3")
      hello_body failing_env (initial_world failing_env) = (Ok tt, w')
    /\ download_calls (res w')
       = download_calls (res (initial_world failing_env))
         ++ [("/some/path/to/file.mp3",
              or_default (pop (split_slash "/some/path/to/file.mp3")) "output.mp3")]
    /\ length (pending w') = S (length (pending (initial_world failing_env)))
    /\ sent (res w') = sent (res (initial_world failing_env))
    /\ statusCode (res w') = statusCode (res (initial_world failing_env))
    /\ console w' = console (initial_world failing_env)
    /\ files w' = files (initial_world failing_env).
Proof.
  apply (controller_delegates_success (fun _ => ret "/some/path/to/file.mp3") hello_body
           failing_env (initial_world failing_env) (initial_world failing_env)
           "/some/path/to/file.mp3");
    reflexivity.
Defined.

(** ** The route as a whole *)

Lemma leftover_unchanged (env : Env) (text : JsValue) (w : World) :
  env_speech env {| model := "tts-1-hd"; voice := "alloy"; input := text |} = None
  \/ (exists r, env_speech env {| model := "tts-1-hd"; voice := "alloy"; input := text |}
                = Some r /\ audio r = None)
  \/ (env_write env = false /\ env_write_partial env = None) ->
  files (leftover env text w) = files w.
Proof.
  unfold leftover. cbn zeta. intros [H|[(r & H & Ha)|[Hw Hp]]].
  - by rewrite H.
  - by rewrite H, Ha.
  - destruct (env_speech env _) as [r|]; [|reflexivity].
    destruct (audio r); [|reflexivity]. by rewrite Hw, Hp.
Qed.

(** X11. Local storage is left exactly as it was by every request that is
    stopped before the write (by the validation, by the provider, by an
    unreadable body) or whose write fails before the file is opened.  A
    write that fails after the file was opened leaves, at the artifact's
    path, the part of the audio written so far. *)
Theorem storage_unchanged_without_synthesis (env : Env) (b : JsValue) :
  (dto_errors b <> []
   \/ env_speech env {| model := "tts-1-hd"; voice := "alloy";
                        input := select_field b "text" |} = None
   \/ (exists r, env_speech env {| model := "tts-1-hd"; voice := "alloy";
                                   input := select_field b "text" |} = Some r
                 /\ audio r = None)
   \/ (env_write env = false /\ env_write_partial env = None) ->
   files (snd (handle_request env b)) = env_disk env)
  /\ (forall r data n,
        dto_errors b = [] ->
        env_speech env {| model := "tts-1-hd"; voice := "alloy";
                          input := select_field b "text" |} = Some r ->
        audio r = Some data ->
        env_write env = false ->
        env_write_partial env = Some n ->
        files (snd (handle_request env b))
        = <[Path.join [env_dirname env; "../../../temp"; env_uuid env +:+ ".mp3"]
            := take n data]> (env_disk env)).
Proof.
  split.
  - intros H. destruct (dto_thrown b) as [e|] eqn:Ht.
    { rewrite (handle_request_thrown env b e Ht). by destruct (env_test env). }
    destruct (dto_errors b) as [|e es] eqn:Herr.
    + destruct H as [H|H]; [congruence|].
      destruct (dto_accepts_inv b Herr) as (text & Hsel & Hlen). rewrite Hsel in H.
      assert (synthesized env (JStr text) = None) as Hsyn.
      { unfold synthesized. destruct H as [H|[(r & H & Ha)|[Hw _]]].
        - by rewrite H.
        - by rewrite H, Ha.
        - destruct (env_speech env _) as [r|]; [|reflexivity].
          destruct (audio r); [|reflexivity]. by rewrite Hw. }
      rewrite (handle_request_failed env b text Hsel Hlen Hsyn).
      destruct (failed_request_view env (JStr text)) as (_ & _ & _ & _ & Hfiles).
      cbn [snd]. rewrite Hfiles. by apply leftover_unchanged.
    + by rewrite (handle_request_rejected env b Ht) by (by rewrite Herr).
  - intros r data n Herr Hsp Ha Hw Hp.
    destruct (dto_accepts_inv b Herr) as (text & Hsel & Hlen). rewrite Hsel in Hsp.
    assert (synthesized env (JStr text) = None) as Hsyn
      by (unfold synthesized; by rewrite Hsp, Ha, Hw).
    rewrite (handle_request_failed env b text Hsel Hlen Hsyn).
    destruct (failed_request_view env (JStr text)) as (_ & _ & _ & _ & Hfiles).
    cbn [snd]. rewrite Hfiles. unfold leftover. cbn zeta. by rewrite Hsp, Ha, Hw, Hp.
Qed.

Lemma storage_unchanged_without_synthesis_witness :
  files (snd (handle_request failing_env hello_body)) = env_disk failing_env.
Proof.
  apply (proj1 (storage_unchanged_without_synthesis failing_env hello_body)).
  right. left. reflexivity.
Defined.

(** X13. No request removes or rewrites a file other than its own
    artifact: every other path holds after the request what it held
    before. *)
Theorem other_files_untouched (env : Env) (b : JsValue) (p : string) :
  p <> Path.join [env_dirname env; "../../../temp"; env_uuid env +:+ ".mp3"] ->
  files (snd (handle_request env b)) !! p = env_disk env !! p.
Proof.
  intros Hp. change (p <> artifact_path env) in Hp.
  destruct (dto_thrown b) as [e|] eqn:Ht.
  { rewrite (handle_request_thrown env b e Ht). by destruct (env_test env). }
  destruct (dto_errors b) as [|e es] eqn:Herr.
  - destruct (dto_accepts_inv b Herr) as (text & Hsel & Hlen).
    destruct (synthesized env (JStr text)) as [data|] eqn:Hsyn.
    + rewrite (handle_request_synthesized env b text data Hsel Hlen Hsyn).
      destruct (env_send env);
        cbn [snd files emit send_failed set_status log_console with_res with_pending
             start_download store_file log_call initial_world];
        by apply lookup_insert_ne.
    + rewrite (handle_request_failed env b text Hsel Hlen Hsyn).
      destruct (failed_request_view env (JStr text)) as (_ & _ & _ & _ & Hfiles).
      cbn [snd]. rewrite Hfiles. by apply leftover_other_files.
  - by rewrite (handle_request_rejected env b Ht) by (by rewrite Herr).
Qed.

Lemma other_files_untouched_witness :
  files (snd (handle_request (hello_env SendCompletes) hello_body)) !! "/app/temp/old.mp3"
  = env_disk (hello_env SendCompletes) !! "/app/temp/old.mp3".
Proof.
  apply (other_files_untouched (hello_env SendCompletes) hello_body "/app/temp/old.mp3").
  discriminate.
Defined.


(** X15. An error gets past the route's own handlers in two situations
    only.  A validator throws: the chain passes the error to [next], and
    Express's error handler answers with its 500 page.  Or the request was
    valid, the synthesis went through, and the transfer broke after headers
    were out: the download callback throws node's "headers already sent",
    which nothing catches.  In every other case nothing escapes. *)
Theorem escape_exactly_when_aborted (env : Env) (b : JsValue) :
  fst (handle_request env b) =
    match dto_thrown b, dto_errors b, synthesized env (select_field b "text"),
          env_send env with
    | None, [], Some _, SendAbortedMidway => Throw HeadersAlreadySent
    | _, _, _, _ => Ok tt
    end
  /\ (sent (res (snd (handle_request env b)))
        = [{| status := 500; filename := None; payload := BodyErrorPage |}]
      <-> dto_thrown b <> None).
Proof.
  destruct (dto_thrown b) as [e|] eqn:Ht.
  { rewrite (handle_request_thrown env b e Ht).
    split; [reflexivity|]. split; [discriminate|]. by destruct (env_test env). }
  destruct (response_of_request env b) as (r & Hr & Hcase). rewrite Ht in Hcase.
  assert (r <> {| status := 500; filename := None; payload := BodyErrorPage |}) as Hne.
  { destruct (dto_errors b) as [|e es].
    - destruct Hcase as [[Hs _]|(_ & _ & Hp)]; intros ->; [discriminate|].
      by apply Hp.
    - rewrite Hcase. discriminate. }
  split.
  - destruct (dto_errors b) as [|e es] eqn:Herr.
    + destruct (dto_accepts_inv b Herr) as (text & Hsel & Hlen). rewrite Hsel.
      destruct (synthesized env (JStr text)) as [data|] eqn:Hsyn.
      * rewrite (handle_request_synthesized env b text data Hsel Hlen Hsyn).
        by destruct (env_send env).
      * by rewrite (handle_request_failed env b text Hsel Hlen Hsyn).
    + by rewrite (handle_request_rejected env b Ht) by (by rewrite Herr).
  - rewrite Hr. split; [|congruence]. intros [= E]. by destruct Hne.
Qed.

(** X12. What a request writes to the error log.  Nothing when it is
    rejected by the validation or delivered; the conversion line when the
    synthesis failed; the sending line when the transfer failed; and when a
    validator threw, the line Express's error handler logs for the error,
    unless NODE_ENV is ['test']. *)
Theorem error_log_of_request (env : Env) (b : JsValue) :
  console (snd (handle_request env b)) =
    match dto_thrown b, dto_errors b, synthesized env (select_field b "text"),
          env_send env with
    | Some e, _, _, _ => if env_test env then [] else [error_text e]
    | None, _ :: _, _, _ => []
    | None, [], None, _ => ["Error converting text to speech:"]
    | None, [], Some _, SendCompletes => []
    | None, [], Some _, _ => ["Error sending the file:"]
    end.
Proof.
  destruct (dto_thrown b) as [e|] eqn:Ht.
  { rewrite (handle_request_thrown env b e Ht). by destruct (env_test env). }
  destruct (dto_errors b) as [|e es] eqn:Herr.
  - destruct (dto_accepts_inv b Herr) as (text & Hsel & Hlen). rewrite Hsel.
    destruct (synthesized env (JStr text)) as [data|] eqn:Hsyn.
    + rewrite (handle_request_synthesized env b text data Hsel Hlen Hsyn).
      by destruct (env_send env).
    + rewrite (handle_request_failed env b text Hsel Hlen Hsyn).
      by destruct (failed_request_view env (JStr text)) as (_ & _ & Hcons & _).
  - by rewrite (handle_request_rejected env b Ht) by (by rewrite Herr).
Qed.

(** ** Where the service writes ([textToSpeech.service.ts], the path) *)

Lemma normalize_absolute (p : string) :
  starts_with_slash p = true -> starts_with_slash (Path.normalize p) = true.
Proof.
  intros H. unfold Path.normalize.
  destruct (String.eqb_spec p "") as [->|_]; [discriminate|].
  rewrite H. cbn [negb].
  destruct (String.eqb (Path.normalizeString p false) ""); reflexivity.
Qed.

Lemma join_head_absolute (d : string) (rest : list string) :
  starts_with_slash d = true -> starts_with_slash (Path.join (d :: rest)) = true.
Proof.
  intros H. assert (d <> "") as Hd by (intros ->; discriminate).
  unfold Path.join, Path.join_args. rewrite filter_cons_True by exact Hd.
  assert (starts_with_slash (join "/" (d :: filter (fun a => a ≠ "") rest)) = true) as Hj.
  { destruct (filter (fun a => a ≠ "") rest) as [|x l]; [exact H|].
    change (join "/" (d :: x :: l)) with (d +:+ "/" +:+ join "/" (x :: l)).
    by rewrite starts_with_slash_app. }
  destruct (String.eqb_spec (join "/" (d :: filter (fun a => a ≠ "") rest)) "") as [E|_].
  - rewrite E in Hj. discriminate.
  - by apply normalize_absolute.
Qed.

(** X16. The path the service returns is absolute whenever [__dirname] is
    (as it always is in node). *)
Theorem returned_path_is_absolute
    (env : Env) (text : JsValue) (w w' : World) (filePath : string) :
  starts_with_slash (env_dirname env) = true ->
  TextToSpeechService.convertTextToSpeech text env w = (Ok filePath, w') ->
  starts_with_slash filePath = true.
Proof.
  intros Hd Hrun. apply service_returns_artifact_path in Hrun as ->.
  by apply join_head_absolute.
Qed.

Lemma returned_path_is_absolute_witness :
  starts_with_slash "/app/temp/9b1deb4d-3b7d-4bad-9bdd-2b0d7b3dcb6d.mp3" = true.
Proof.
  apply (returned_path_is_absolute (hello_env SendCompletes) (JStr "Hello, world!")
           (initial_world (hello_env SendCompletes))
           (snd (TextToSpeechService.convertTextToSpeech (JStr "Hello, world!")
                   (hello_env SendCompletes) (initial_world (hello_env SendCompletes)))));
    reflexivity.
Defined.

Lemma fold_valid_segments (allow : bool) (segs acc : list string) :
  Forall valid_segment segs ->
  fold_left (Path.normalize_step allow) (split_slash (join "/" segs)) acc = rev segs ++ acc.
Proof.
  revert acc. induction segs as [|s t IH]; intros acc Hv; [reflexivity|].
  inversion Hv as [|? ? Hs Ht]; subst.
  destruct t as [|s' t'].
  - cbn [join]. rewrite (split_slash_plain s) by apply Hs.
    cbn [fold_left rev app]. by apply normalize_step_push.
  - change (join "/" (s :: s' :: t')) with (s +:+ "/" +:+ join "/" (s' :: t')).
    rewrite split_slash_app, (split_slash_plain s) by apply Hs.
    cbn [app fold_left]. rewrite (normalize_step_push allow acc s Hs).
    rewrite (IH (s :: acc) Ht). cbn [rev]. by rewrite <- !app_assoc.
Qed.

Lemma pop_valid (stack : list string) :
  Forall valid_segment stack ->
  Path.normalize_step false stack ".." = drop 1 stack.
Proof.
  intros Hv. unfold Path.normalize_step. cbn [String.eqb Ascii.eqb Bool.eqb].
  destruct stack as [|top below]; [reflexivity|].
  inversion Hv as [|? ? (_ & _ & _ & Htop) _]; subst.
  by rewrite (eqb_false _ _ Htop).
Qed.

Lemma Forall_drop_valid (n : nat) (stack : list string) :
  Forall valid_segment stack -> Forall valid_segment (drop n stack).
Proof. apply Forall_drop. Qed.

(** [path.join(__dirname, '../../../temp')] climbs three levels, stopping
    at the root. *)
Lemma temp_dir_location (env : Env) (segs : list string) :
  Forall valid_segment segs ->
  env_dirname env = "/" +:+ join "/" segs ->
  Path.join [env_dirname env; "../../../temp"]
  = "/" +:+ join "/" (take (length segs - 3) segs ++ ["temp"]).
Proof.
  intros Hv Hd. unfold Path.join, Path.join_args.
  rewrite filter_cons_True by (rewrite Hd; discriminate).
  rewrite filter_cons_True by discriminate. rewrite filter_nil.
  change (join "/" [env_dirname env; "../../../temp"])
    with (env_dirname env +:+ "/" +:+ "../../../temp").
  rewrite eqb_false by apply child_nonempty.
  replace (env_dirname env +:+ "/" +:+ "../../../temp")
    with ((env_dirname env +:+ "/" +:+ "../../..") +:+ "/" +:+ "temp")
    by (by rewrite !app_assoc_str).
  rewrite (normalize_leaf _ "temp" temp_valid). cbn zeta.
  rewrite Hd.
  change (starts_with_slash
            ((("/" +:+ join "/" segs) +:+ "/" +:+ "../../..") +:+ "/" +:+ "temp"))
    with true.
  cbn [negb]. rewrite split_slash_app.
  change (split_slash "../../..") with [".."; ".."; ".."].
  change (split_slash ("/" +:+ join "/" segs))
    with ("" :: split_slash (join "/" segs)).
  rewrite fold_left_app. cbn [fold_left].
  change (Path.normalize_step false [] "") with (@nil string).
  rewrite (fold_valid_segments false segs [] Hv), app_nil_r.
  cbn [fold_left].
  assert (Forall valid_segment (rev segs)) as Hr by (by apply Forall_rev).
  rewrite (pop_valid _ Hr).
  rewrite (pop_valid _ (Forall_drop_valid 1 _ Hr)).
  rewrite (pop_valid _ (Forall_drop_valid 1 _ (Forall_drop_valid 1 _ Hr))).
  rewrite !drop_drop. cbn [Nat.add].
  change (drop 3 (rev segs)) with (skipn 3 (rev segs)).
  by rewrite skipn_rev, rev_involutive.
Qed.

(** X17. The service writes the audio into the directory [temp] three
    levels above [__dirname], stopping at the root: with
    [__dirname = /s1/../sn], a successful call stores the audio at
    [/s1/../s(n-3)/temp/<uuid>.mp3] ([/temp/<uuid>.mp3] when [n <= 3]) and
    returns that path. *)
Theorem temp_dir_three_levels_up
    (env : Env) (segs : list string) (text : JsValue) (data : bytes) (w : World) :
  Forall valid_segment segs ->
  env_dirname env = "/" +:+ join "/" segs ->
  is_uuid (env_uuid env) = true ->
  synthesized env text = Some data ->
  exists w',
    TextToSpeechService.convertTextToSpeech text env w
    = (Ok ("/" +:+ join "/" (take (length segs - 3) segs
                               ++ ["temp"; env_uuid env +:+ ".mp3"])), w')
    /\ files w' !! ("/" +:+ join "/" (take (length segs - 3) segs
                                        ++ ["temp"; env_uuid env +:+ ".mp3"]))
       = Some data.
Proof.
  intros Hv Hd Hu%is_uuid_no_slash Hsyn.
  assert (artifact_path env
          = "/" +:+ join "/" (take (length segs - 3) segs
                                ++ ["temp"; env_uuid env +:+ ".mp3"])) as <-.
  { rewrite (artifact_in_temp_dir env Hu). unfold temp_dir.
    rewrite (temp_dir_location env segs Hv Hd).
    change (take (length segs - 3) segs ++ ["temp"; env_uuid env +:+ ".mp3"])
      with (take (length segs - 3) segs ++ ["temp"] ++ [env_uuid env +:+ ".mp3"]).
    rewrite (app_assoc (take (length segs - 3) segs)).
    rewrite (join_snoc "/" (take (length segs - 3) segs ++ ["temp"]))
      by (intros [_ ?]%app_eq_nil; discriminate).
    by rewrite app_assoc_str. }
  eexists. split; [by apply service_ok|].
  cbn [files store_file]. apply lookup_insert_eq.
Qed.

Lemma temp_dir_three_levels_up_witness :
  exists w',
    TextToSpeechService.convertTextToSpeech (JStr "Hello, world!")
      (hello_env SendCompletes) (initial_world (hello_env SendCompletes))
    = (Ok ("/" +:+ join "/" (take (length ["app"; "dist"; "modules"; "text-to-speech"] - 3)
                               ["app"; "dist"; "modules"; "text-to-speech"]
                             ++ ["temp"; "9b1deb4d-3b7d-4bad-9bdd-2b0d7b3dcb6d" +:+ ".mp3"])),
       w')
    /\ files w' !! ("/" +:+ join "/"
                       (take (length ["app"; "dist"; "modules"; "text-to-speech"] - 3)
                          ["app"; "dist"; "modules"; "text-to-speech"]
                        ++ ["temp"; "9b1deb4d-3b7d-4bad-9bdd-2b0d7b3dcb6d" +:+ ".mp3"]))
       = Some [Byte.x49; Byte.x44; Byte.x33].
Proof.
  apply (temp_dir_three_levels_up (hello_env SendCompletes)
           ["app"; "dist"; "modules"; "text-to-speech"] (JStr "Hello, world!")
           [Byte.x49; Byte.x44; Byte.x33] (initial_world (hello_env SendCompletes))).
  - repeat constructor; discriminate.
  - reflexivity.
  - reflexivity.
  - reflexivity.
Defined.

(** X18. Only [text] counts: two bodies with the same [text] are treated
    alike in everything, whatever else they hold. *)
Theorem other_fields_ignored (env : Env) (b1 b2 : JsValue) :
  select_field b1 "text" = select_field b2 "text" ->
  handle_request env b1 = handle_request env b2.
Proof.
  intros H. pose proof (dto_depends_on_text b1 b2 H) as Hrun.
  assert (dto_errors b2 = dto_errors b1) as Herrs by (unfold dto_errors; by rewrite Hrun).
  assert (dto_thrown b2 = dto_thrown b1) as Hthr by (unfold dto_thrown; by rewrite Hrun).
  destruct (dto_thrown b1) as [e|] eqn:Ht.
  { by rewrite (handle_request_thrown env b1 e Ht), (handle_request_thrown env b2 e Hthr). }
  destruct (dto_errors b1) as [|e es] eqn:Herr.
  - destruct (dto_accepts_inv b1 Herr) as (text & Hsel1 & Hlen).
    assert (select_field b2 "text" = JStr text) as Hsel2 by (by rewrite <- H).
    destruct (synthesized env (JStr text)) as [data|] eqn:Hsyn.
    + by rewrite (handle_request_synthesized env b1 text data Hsel1 Hlen Hsyn),
        (handle_request_synthesized env b2 text data Hsel2 Hlen Hsyn).
    + by rewrite (handle_request_failed env b1 text Hsel1 Hlen Hsyn),
        (handle_request_failed env b2 text Hsel2 Hlen Hsyn).
  - rewrite (handle_request_rejected env b1 Ht) by (by rewrite Herr).
    rewrite (handle_request_rejected env b2 Hthr) by (by rewrite Herrs).
    by rewrite Herr, Herrs.
Qed.

Lemma other_fields_ignored_witness :
  handle_request (hello_env SendCompletes) hello_body
  = handle_request (hello_env SendCompletes)
      (JObj [("voice", JStr "nova"); ("text", JStr "Hello, world!")]).
Proof.
  apply (other_fields_ignored (hello_env SendCompletes) hello_body
           (JObj [("voice", JStr "nova"); ("text", JStr "Hello, world!")])).
  reflexivity.
Defined.
